(** * NotHere.one crawler and composite scorer: a shallow embedding

    The development follows the Python sources module by module:
    - [Py]          the [str] methods the sources call ([lower], [strip],
                    [startswith], [endswith], [in], [index], slicing);
    - [UrlParse]    [urllib.parse.urlparse(...).netloc];
    - [Blocklist]   [blocklist.py]  (class [Tier1Blocklist]);
    - [Redis]       [redis_manager.py] (class [RedisManager]);
    - [Crawler]     [crawler.py] ([normalize_url], [get_url_hash], [queue_url]);
    - [MediaLiteracy] [media_literacy_scorer.py];
    - [Composite]   [composite_scorer.py].

    Python [str] values are modelled as [string]s of ASCII characters. *)

From Stdlib Require Import ZArith QArith Floats List Bool Ascii String Lia.
From stdpp Require Import gmap strings.
Import ListNotations.
Local Open Scope string_scope.
Local Open Scope nat_scope.

(** ** Python string methods *)
Module Py.

Definition code (c : ascii) : nat := nat_of_ascii c.

(** [c.isspace()] on ASCII: TAB..CR, FS..US and the space. *)
Definition isspace (c : ascii) : bool :=
  let n := code c in
  ((9 <=? n) && (n <=? 13)) || ((28 <=? n) && (n <=? 32)).

Definition lower_char (c : ascii) : ascii :=
  let n := code c in
  if (65 <=? n) && (n <=? 90) then ascii_of_nat (n + 32) else c.

(** [s.lower()] *)
Fixpoint lower (s : string) : string :=
  match s with
  | EmptyString => EmptyString
  | String c r => String (lower_char c) (lower r)
  end.

(** [s.lstrip()] *)
Fixpoint lstrip (s : string) : string :=
  match s with
  | EmptyString => EmptyString
  | String c r => if isspace c then lstrip r else s
  end.

(** [s.rstrip()] *)
Fixpoint rstrip (s : string) : string :=
  match s with
  | EmptyString => EmptyString
  | String c r =>
      match rstrip r with
      | EmptyString => if isspace c then EmptyString else String c EmptyString
      | r' => String c r'
      end
  end.

(** [s.strip()] *)
Definition strip (s : string) : string := rstrip (lstrip s).

(** [s.startswith(p)] *)
Fixpoint startswith (p s : string) : bool :=
  match p, s with
  | EmptyString, _ => true
  | String a p', String b s' => Ascii.eqb a b && startswith p' s'
  | String _ _, EmptyString => false
  end.

(** [sub in s] *)
Fixpoint contains (sub s : string) : bool :=
  startswith sub s ||
  match s with
  | EmptyString => false
  | String _ r => contains sub r
  end.

(** [s[n:]] *)
Fixpoint drop (n : nat) (s : string) : string :=
  match n, s with
  | O, _ => s
  | S n', String _ r => drop n' r
  | S _, EmptyString => EmptyString
  end.

(** [s[:n]] *)
Fixpoint take (n : nat) (s : string) : string :=
  match n, s with
  | O, _ => EmptyString
  | S n', String c r => String c (take n' r)
  | S _, EmptyString => EmptyString
  end.

(** [s.endswith(suf)] *)
Definition endswith (suf s : string) : bool :=
  (String.length suf <=? String.length s) &&
  String.eqb (drop (String.length s - String.length suf) s) suf.

(** [s.find(c)] for a one-character [c]; [None] stands for [-1]
    ([s.index(c)] raises [ValueError] in that case). *)
Fixpoint find_char (c : ascii) (s : string) : option nat :=
  match s with
  | EmptyString => None
  | String a r =>
      if Ascii.eqb a c then Some 0
      else match find_char c r with
           | Some i => Some (S i)
           | None => None
           end
  end.

(** [c in s] for a one-character [c] *)
Definition has_char (c : ascii) (s : string) : bool :=
  match find_char c s with Some _ => true | None => false end.

(** [s.replace(old, '')]: every non-overlapping occurrence of [old],
    scanning from the left, is removed.  [skip] counts the characters of
    an occurrence that remain to be dropped. *)
Fixpoint remove_all_from (old : string) (skip : nat) (s : string) : string :=
  match s with
  | EmptyString => EmptyString
  | String c r =>
      match skip with
      | S k => remove_all_from old k r
      | O =>
          if startswith old s
          then remove_all_from old (String.length old - 1) r
          else String c (remove_all_from old 0 r)
      end
  end.

Definition remove_all (old s : string) : string :=
  match old with
  | EmptyString => s
  | _ => remove_all_from old 0 s
  end.

(** [sep.join(l)] *)
Fixpoint join (sep : string) (l : list string) : string :=
  match l with
  | [] => EmptyString
  | [x] => x
  | x :: r => x +:+ sep +:+ join sep r
  end.

(** [s.split()]: the maximal runs of non-space characters *)
Fixpoint split_ws (s : string) : list string :=
  match s with
  | EmptyString => []
  | String c r =>
      if isspace c then split_ws r
      else
        match r with
        | EmptyString => [String c EmptyString]
        | String c' _ =>
            if isspace c' then String c EmptyString :: split_ws r
            else
              match split_ws r with
              | w :: ws => String c w :: ws
              | [] => [String c EmptyString]
              end
        end
  end.

(** [s.split(sep)] for a one-character [sep] *)
Fixpoint split_char (sep : ascii) (s : string) : list string :=
  match s with
  | EmptyString => [EmptyString]
  | String c r =>
      if Ascii.eqb c sep then EmptyString :: split_char sep r
      else
        match split_char sep r with
        | w :: ws => String c w :: ws
        | [] => [String c EmptyString]
        end
  end.

(** [s.count(c)] for a one-character [c] *)
Fixpoint count_char (c : ascii) (s : string) : nat :=
  match s with
  | EmptyString => 0
  | String a r => (if Ascii.eqb a c then 1 else 0) + count_char c r
  end.

Definition is_upper_char (c : ascii) : bool :=
  let n := code c in (65 <=? n) && (n <=? 90).
Definition is_lower_char (c : ascii) : bool :=
  let n := code c in (97 <=? n) && (n <=? 122).

Fixpoint any_char (p : ascii -> bool) (s : string) : bool :=
  match s with
  | EmptyString => false
  | String c r => p c || any_char p r
  end.

(** [s.isupper()]: some cased character, and none in lower case *)
Definition isupper (s : string) : bool :=
  any_char is_upper_char s && negb (any_char is_lower_char s).

(** [len(set(l))] *)
Definition count_distinct (l : list string) : nat :=
  List.length (nodup string_dec l).

(** Exceptions raised by the modelled code, and [str(e)]. *)
Inductive exn : Type :=
  | ValueError (msg : string)
  | KeyError (key : string)
  | TypeError (msg : string)
  | AttributeError (msg : string)
  | JSONDecodeError (msg : string)
  | ConnectionError (msg : string).

Definition str_of_exn (e : exn) : string :=
  match e with
  | ValueError m | TypeError m | AttributeError m
  | JSONDecodeError m | ConnectionError m => m
  | KeyError k => "'" +:+ k +:+ "'"
  end.

(** The outcome of a call: a value, or a raised exception. *)
Inductive res (A : Type) : Type :=
  | Ok (a : A)
  | Raise (e : exn).
Arguments Ok {A} a.
Arguments Raise {A} e.

End Py.

(** ** urllib.parse: the network location of a URL

    [netloc url] is [urlparse(url).netloc], following CPython's
    [urlsplit]: leading C0 controls and spaces are stripped, TAB, CR and
    LF are removed, a leading scheme is split off, and when the rest
    begins with two slashes the network location runs up to the first
    slash, question mark or hash.  A network location with an unmatched
    square bracket raises [ValueError]. *)
Module UrlParse.
Import Py.

Definition is_c0_or_space (c : ascii) : bool := code c <=? 32.

Fixpoint lstrip_c0 (s : string) : string :=
  match s with
  | EmptyString => EmptyString
  | String c r => if is_c0_or_space c then lstrip_c0 r else s
  end.

Definition is_unsafe (c : ascii) : bool :=
  let n := code c in (n =? 9) || (n =? 13) || (n =? 10).

Fixpoint remove_unsafe (s : string) : string :=
  match s with
  | EmptyString => EmptyString
  | String c r =>
      if is_unsafe c then remove_unsafe r else String c (remove_unsafe r)
  end.

Definition isalpha (c : ascii) : bool :=
  let n := code c in
  ((65 <=? n) && (n <=? 90)) || ((97 <=? n) && (n <=? 122)).

Definition isdigit (c : ascii) : bool :=
  let n := code c in (48 <=? n) && (n <=? 57).

(** membership in [scheme_chars] *)
Definition scheme_char (c : ascii) : bool :=
  let n := code c in
  isalpha c || isdigit c || (n =? 43) || (n =? 45) || (n =? 46).

Fixpoint all_chars (p : ascii -> bool) (s : string) : bool :=
  match s with
  | EmptyString => true
  | String c r => p c && all_chars p r
  end.

(** The scheme test of [urlsplit]: returns the URL without its scheme. *)
Definition drop_scheme (url : string) : string :=
  match find_char ":" url, url with
  | Some (S i), String c0 _ =>
      if isalpha c0 && all_chars scheme_char (take (S i) url)
      then drop (S (S i)) url
      else url
  | _, _ => url
  end.

Definition is_delim (c : ascii) : bool :=
  let n := code c in (n =? 47) || (n =? 63) || (n =? 35).

(** [_splitnetloc(url, 2)[0]], given [url[2:]] *)
Fixpoint until_delim (s : string) : string :=
  match s with
  | EmptyString => EmptyString
  | String c r => if is_delim c then EmptyString else String c (until_delim r)
  end.

Definition netloc (url : string) : res string :=
  let url := remove_unsafe (lstrip_c0 url) in
  let url := drop_scheme url in
  if startswith "//" url then
    let nl := until_delim (drop 2 url) in
    if (has_char "[" nl && negb (has_char "]" nl))
       || (has_char "]" nl && negb (has_char "[" nl))
    then Raise (ValueError "Invalid IPv6 URL")
    else Ok nl
  else Ok EmptyString.

End UrlParse.

(** ** blocklist.py *)
Module Blocklist.
Import Py.

(** A compiled regular expression: its source text ([pattern.pattern])
    and its [search] method, as a test on the subject string. *)
Record pattern : Type := {
  pattern_src : string;
  search : string -> bool
}.

(** [re.compile(p, re.IGNORECASE)] for a pattern [p] without regex
    metacharacters: [search] looks for [p] as a substring, ignoring
    case.  Every pattern of the shipped list is of this kind. *)
Definition re_compile_ignorecase (p : string) : pattern :=
  {| pattern_src := p; search := fun s => contains (lower p) (lower s) |}.

(** [class Tier1Blocklist]: the two sets and the compiled patterns. *)
Record Tier1Blocklist : Type := {
  blocked_domains : gset string;
  blocked_tlds : gset string;
  compiled_patterns : list pattern
}.

Definition initial_blocked_domains : list string :=
  [
    "pornhub.com"; "xvideos.com"; "xnxx.com"; "redtube.com"; "youporn.com";
    "tube8.com"; "spankbang.com"; "xhamster.com"; "eporner.com";
    "motherless.com"; "livejasmin.com"; "chaturbate.com"; "cam4.com";
    "stripchat.com"; "camsoda.com"; "bet365.com"; "pokerstars.com";
    "bwin.com"; "draftkings.com"; "fanduel.com"; "betfair.com";
    "casino.com"; "bovada.lv"; "888casino.com"; "williamhill.com";
    "paddypower.com"; "betway.com"; "unibet.com"; "betonline.ag";
    "totalwine.com"; "wine.com"; "drizly.com"; "reservebar.com";
    "leafly.com"; "weedmaps.com"; "eaze.com"; "cashnetusa.com";
    "checkintocash.com"; "cashadvance.com"; "speedycash.com";
    "moneylion.com"; "advanceamerica.net"; "titlemax.com"; "checkngo.com";
    "amway.com"; "herbalife.com"; "monat.com"; "lularoe.com";
    "itworks.com"; "younique.com"; "avon.com"; "marykay.com";
    "arbonne.com"; "beachbody.com"; "rodan-fields.com";
    "pampered-chef.com"; "usana.com"; "isagenix.com"; "stormfront.org";
    "dailystormer.name"; "vdare.com"; "americanrenaissance.com";
    "counter-currents.com"; "theoccidentalobserver.net"; "unz.com";
    "infowars.com"; "prisonplanet.com"; "naturalnews.com";
    "beforeitsnews.com"; "veteranstoday.com"; "rense.com"; "davidicke.com";
    "thetruthseeker.co.uk"; "conspiracyplanet.com"; "rumormillnews.com";
    "qmap.pub"; "qanon.pub"; "thegatewaypundit.com"; "tfrlive.com";
    "theepochtimes.com"; "mercola.com"; "greenmedinfo.com"; "tenpenny.com";
    "learntherisk.org"; "childrenshealthdefense.org"; "nvic.org";
    "ehow.com"; "answers.com"; "ask.com"; "answerbag.com"; "chacha.com";
    "mahalo.com"; "wikihow.com"; "buzzle.com"; "listverse.com"
  ].

Definition initial_blocked_tlds : list string :=
  [
    ".xxx"; ".adult"; ".porn"; ".sex"; ".sexy"; ".casino"; ".bet";
    ".poker"; ".loan"; ".loans"; ".date"; ".download"; ".click"
  ].

Definition initial_blocked_patterns : list string :=
  [
    "/porn/"; "/xxx/"; "/sex/"; "/adult/"; "/nude/"; "/escort/";
    "/hookup/"; "/camgirl/"; "/onlyfans/"; "/casino/"; "/poker/";
    "/betting/"; "/slots/"; "/blackjack/"; "/roulette/"; "/buy-weed/";
    "/marijuana-delivery/"; "/liquor-store/"; "/order-alcohol/";
    "/payday-loan/"; "/cash-advance/"; "/title-loan/"; "/quick-cash/";
    "/join-my-team/"; "/be-your-own-boss/"; "/work-from-home-opportunity/";
    "/flat-earth/"; "/holocaust-hoax/"; "/crisis-actors/"; "/false-flag/";
    "/qanon/"; "/moon-landing-fake/"; "/chemtrails/"; "/5g-conspiracy/";
    "/covid-hoax/"; "/plandemic/"; "/vaccine-injury/"; "/anti-vax/"
  ].

(** [Tier1Blocklist.__init__] *)
Definition init : Tier1Blocklist :=
  {| blocked_domains := list_to_set initial_blocked_domains;
     blocked_tlds := list_to_set initial_blocked_tlds;
     compiled_patterns := map re_compile_ignorecase initial_blocked_patterns |}.

(** [Tier1Blocklist.is_blocked].  The [for] loops that return on the
    first hit are [find]s; the sets are walked in the order of
    [elements], Python's own order being unspecified. *)
Definition is_blocked (bl : Tier1Blocklist) (url : string)
  : bool * option string :=
  match UrlParse.netloc (lower url) with
  | Raise e => (true, Some ("Invalid URL format: " +:+ str_of_exn e))
  | Ok domain =>
      let domain :=
        if startswith "www." domain then drop 4 domain else domain in
      if bool_decide (domain ∈ blocked_domains bl)
      then (true, Some ("Blocked domain: " +:+ domain))
      else
        match find (fun blocked =>
                      endswith ("." +:+ blocked) domain
                      || String.eqb domain blocked)
                   (elements (blocked_domains bl)) with
        | Some blocked => (true, Some ("Blocked domain: " +:+ blocked))
        | None =>
            match find (fun tld => endswith tld domain)
                       (elements (blocked_tlds bl)) with
            | Some tld => (true, Some ("Blocked TLD: " +:+ tld))
            | None =>
                let full_url := lower url in
                match find (fun p => search p full_url)
                           (compiled_patterns bl) with
                | Some p =>
                    (true, Some ("Blocked pattern: " +:+ pattern_src p))
                | None => (false, None)
                end
            end
        end
  end.

(** [add_domain], [remove_domain], [add_pattern] *)
Definition clean_domain (domain : string) : string :=
  let domain := strip (lower domain) in
  if startswith "www." domain then drop 4 domain else domain.

Definition add_domain (bl : Tier1Blocklist) (domain : string) : Tier1Blocklist :=
  {| blocked_domains := {[ clean_domain domain ]} ∪ blocked_domains bl;
     blocked_tlds := blocked_tlds bl;
     compiled_patterns := compiled_patterns bl |}.

Definition remove_domain (bl : Tier1Blocklist) (domain : string) : Tier1Blocklist :=
  {| blocked_domains := blocked_domains bl ∖ {[ clean_domain domain ]};
     blocked_tlds := blocked_tlds bl;
     compiled_patterns := compiled_patterns bl |}.

Definition add_pattern (bl : Tier1Blocklist) (p : pattern) : Tier1Blocklist :=
  {| blocked_domains := blocked_domains bl;
     blocked_tlds := blocked_tlds bl;
     compiled_patterns := compiled_patterns bl ++ [p] |}.

End Blocklist.

(** ** hashlib.sha256: the digest behind [get_url_hash] (FIPS 180-4) *)
Module Sha256.
Local Open Scope Z_scope.

Definition w32 (x : Z) : Z := x mod 2 ^ 32.
Definition add32 (x y : Z) : Z := w32 (x + y).
Definition rotr (n x : Z) : Z :=
  Z.lor (Z.shiftr x n) (w32 (Z.shiftl x (32 - n))).
Definition shr (n x : Z) : Z := Z.shiftr x n.
Definition not32 (x : Z) : Z := Z.lxor x 0xffffffff.

Definition Ch (x y z : Z) : Z := Z.lxor (Z.land x y) (Z.land (not32 x) z).
Definition Maj (x y z : Z) : Z :=
  Z.lxor (Z.lxor (Z.land x y) (Z.land x z)) (Z.land y z).
Definition Sigma0 (x : Z) : Z := Z.lxor (Z.lxor (rotr 2 x) (rotr 13 x)) (rotr 22 x).
Definition Sigma1 (x : Z) : Z := Z.lxor (Z.lxor (rotr 6 x) (rotr 11 x)) (rotr 25 x).
Definition sigma0 (x : Z) : Z := Z.lxor (Z.lxor (rotr 7 x) (rotr 18 x)) (shr 3 x).
Definition sigma1 (x : Z) : Z := Z.lxor (Z.lxor (rotr 17 x) (rotr 19 x)) (shr 10 x).

(** The constants are fractional bits of roots of the first primes:
    the round constants come from the cube roots of the first 64, the
    initial hash value from the square roots of the first 8. *)
Definition is_prime (n : Z) : bool :=
  (1 <? n) && forallb (fun d => negb (n mod d =? 0))
                      (map Z.of_nat (seq 2 (Z.to_nat n - 2))).

Definition primes_below (n : nat) : list Z :=
  filter is_prime (map Z.of_nat (seq 0 n)).

(** the integer cube root of [x], found bit by bit from bit [n - 1] down *)
Fixpoint icbrt (n : nat) (x acc : Z) : Z :=
  match n with
  | O => acc
  | S n' =>
      let c := acc + 2 ^ Z.of_nat n' in
      icbrt n' x (if c * c * c <=? x then c else acc)
  end.

Definition K : list Z :=
  Eval vm_compute in
    map (fun p => w32 (icbrt 36 (p * 2 ^ 96) 0)) (primes_below 312).

Definition H0 : list Z :=
  Eval vm_compute in
    map (fun p => w32 (Z.sqrt (p * 2 ^ 64))) (primes_below 20).

(** the message bytes *)
Fixpoint bytes_of (s : string) : list Z :=
  match s with
  | EmptyString => []
  | String c r => Z.of_nat (nat_of_ascii c) :: bytes_of r
  end.

(** big-endian bytes of [x], [n] of them *)
Fixpoint be_bytes (n : nat) (x : Z) : list Z :=
  match n with
  | O => []
  | S n' => (Z.shiftr x (8 * Z.of_nat n')) mod 256 :: be_bytes n' x
  end.

(** padding: a one bit, zeros up to 56 mod 64, the bit length on 8 bytes *)
Definition pad (msg : list Z) : list Z :=
  let len := Z.of_nat (List.length msg) in
  let zeros := Z.to_nat ((55 - len) mod 64) in
  msg ++ [0x80] ++ repeat 0 zeros ++ be_bytes 8 (8 * len).

Fixpoint words_of (fuel : nat) (bs : list Z) : list Z :=
  match fuel, bs with
  | S f, b0 :: b1 :: b2 :: b3 :: r =>
      (b0 * 2 ^ 24 + b1 * 2 ^ 16 + b2 * 2 ^ 8 + b3) :: words_of f r
  | _, _ => []
  end.

(** the message schedule: 16 words extended to 64 *)
Fixpoint extend (n : nat) (w : list Z) : list Z :=
  match n with
  | O => w
  | S n' =>
      let t := List.length w in
      let x := add32 (add32 (sigma1 (nth (t - 2) w 0)) (nth (t - 7) w 0))
                     (add32 (sigma0 (nth (t - 15) w 0)) (nth (t - 16) w 0)) in
      extend n' (w ++ [x])
  end.

Record regs : Type := Regs { ra : Z; rb : Z; rc : Z; rd : Z;
                             re : Z; rf : Z; rg : Z; rh : Z }.

Definition round (r : regs) (kw : Z * Z) : regs :=
  let '(k, w) := kw in
  let t1 := add32 (add32 (add32 (rh r) (Sigma1 (re r)))
                         (add32 (Ch (re r) (rf r) (rg r)) k)) w in
  let t2 := add32 (Sigma0 (ra r)) (Maj (ra r) (rb r) (rc r)) in
  Regs (add32 t1 t2) (ra r) (rb r) (rc r) (add32 (rd r) t1) (re r) (rf r) (rg r).

Definition compress (h : regs) (block : list Z) : regs :=
  let w := extend 48 block in
  let r := fold_left round (combine K w) h in
  Regs (add32 (ra h) (ra r)) (add32 (rb h) (rb r)) (add32 (rc h) (rc r))
       (add32 (rd h) (rd r)) (add32 (re h) (re r)) (add32 (rf h) (rf r))
       (add32 (rg h) (rg r)) (add32 (rh h) (rh r)).

Fixpoint blocks (fuel : nat) (ws : list Z) : list (list Z) :=
  match fuel, ws with
  | S f, _ :: _ => firstn 16 ws :: blocks f (skipn 16 ws)
  | _, _ => []
  end.

Definition init_regs : regs :=
  Regs (nth 0 H0 0) (nth 1 H0 0) (nth 2 H0 0) (nth 3 H0 0)
       (nth 4 H0 0) (nth 5 H0 0) (nth 6 H0 0) (nth 7 H0 0).

Definition digest_words (msg : list Z) : list Z :=
  let bs := pad msg in
  let ws := words_of (List.length bs) bs in
  let r := fold_left compress (blocks (List.length ws) ws) init_regs in
  [ra r; rb r; rc r; rd r; re r; rf r; rg r; rh r].

Definition hex_digit (d : Z) : ascii :=
  if d <? 10 then ascii_of_nat (Z.to_nat (48 + d))
  else ascii_of_nat (Z.to_nat (87 + d)).

Fixpoint hex_of_bytes (bs : list Z) : string :=
  match bs with
  | [] => EmptyString
  | b :: r => String (hex_digit (b / 16)) (String (hex_digit (b mod 16)) (hex_of_bytes r))
  end.

(** [hashlib.sha256(data).hexdigest()] *)
Definition hexdigest (data : string) : string :=
  hex_of_bytes (flat_map (be_bytes 4) (digest_words (bytes_of data))).

End Sha256.

(** ** redis_manager.py

    The frontier store holds the list [crawler:queue] and the set
    [crawler:queue:set].  Every client call either reaches the server
    or raises; the flag [up] of a call says which. *)
Module Redis.
Import Py.

Record store : Type := {
  queue : list string;   (* leftmost element first *)
  qset : gset string
}.

Definition empty : store := {| queue := []; qset := ∅ |}.

Definition unreachable : exn := ConnectionError "Error connecting to Redis".

(** [SADD key member]: the number of members added *)
Definition sadd (up : bool) (member : string) (st : store) : res (nat * store) :=
  if up then
    if bool_decide (member ∈ qset st) then Ok (0, st)
    else Ok (1, {| queue := queue st; qset := {[ member ]} ∪ qset st |})
  else Raise unreachable.

(** [LPUSH key value]: the length of the list afterwards *)
Definition lpush (up : bool) (value : string) (st : store) : res (nat * store) :=
  if up then
    Ok (S (List.length (queue st)),
        {| queue := value :: queue st; qset := qset st |})
  else Raise unreachable.

(** the list without its rightmost element, and that element *)
Fixpoint pop_right (l : list string) : option (list string * string) :=
  match l with
  | [] => None
  | x :: r =>
      match pop_right r with
      | None => Some ([], x)
      | Some (r', y) => Some (x :: r', y)
      end
  end.

(** [RPOP key] *)
Definition rpop (up : bool) (st : store) : res (option string * store) :=
  if up then
    match pop_right (queue st) with
    | None => Ok (None, st)
    | Some (q, x) => Ok (Some x, {| queue := q; qset := qset st |})
    end
  else Raise unreachable.

(** [RedisManager.enqueue_url] *)
Definition enqueue_url (up_sadd up_lpush : bool) (url : string) (st : store)
  : bool * store :=
  match sadd up_sadd url st with
  | Raise _ => (false, st)
  | Ok (added, st1) =>
      if 0 <? added then
        match lpush up_lpush url st1 with
        | Raise _ => (false, st1)
        | Ok (_, st2) => (true, st2)
        end
      else (false, st1)
  end.

(** [RedisManager.dequeue_url] *)
Definition dequeue_url (up : bool) (st : store) : option string * store :=
  match rpop up st with
  | Raise _ => (None, st)
  | Ok (url, st') => (url, st')
  end.

(** [RedisManager.queue_size] *)
Definition queue_size (st : store) : nat := List.length (queue st).

(** [RedisManager.is_url_queued] *)
Definition is_url_queued (url : string) (st : store) : bool :=
  bool_decide (url ∈ qset st).

(** [RedisManager.clear_queue] *)
Definition clear_queue : store := empty.

(** One call on the frontier store, and a sequence of them. *)
Inductive op : Type :=
  | Enqueue (up_sadd up_lpush : bool) (url : string)
  | Dequeue (up : bool).

Definition step (st : store) (o : op) : store :=
  match o with
  | Enqueue u1 u2 url => snd (enqueue_url u1 u2 url st)
  | Dequeue u => snd (dequeue_url u st)
  end.

Definition run (ops : list op) (st : store) : store := fold_left step ops st.

(** Every queued URL is a member of the companion set, and no URL is
    queued twice. *)
Definition wf (st : store) : Prop :=
  NoDup (queue st) /\ (forall u, In u (queue st) -> u ∈ qset st).

End Redis.

(** ** crawler.py *)
Module Crawler.
Import Py.

(** [Crawler.normalize_url] *)
Definition normalize_url (url : string) : string :=
  let url := strip url in
  let url :=
    match find_char "#" url with
    | Some i => take i url
    | None => url
    end in
  if startswith "http://" url || startswith "https://" url
  then url
  else "https://" +:+ url.

(** [Crawler.get_url_hash] *)
Definition get_url_hash (url : string) : string := Sha256.hexdigest url.

Record stats : Type := {
  pages_crawled : nat;
  pages_blocked : nat;
  pages_failed : nat;
  links_found : nat;
  urls_queued : nat
}.

(** The crawler with what it reaches: the frontier store, the
    [url_hash] column of table [pages], the blocklist, the counters. *)
Record crawler : Type := {
  redis : Redis.store;
  pages : gset string;
  blocklist : Blocklist.Tier1Blocklist;
  stat : stats
}.

(** [Crawler.is_url_crawled] *)
Definition is_url_crawled (url_hash : string) (c : crawler) : bool :=
  bool_decide (url_hash ∈ pages c).

Definition count_queued (s : stats) : stats :=
  {| pages_crawled := pages_crawled s;
     pages_blocked := pages_blocked s;
     pages_failed := pages_failed s;
     links_found := links_found s;
     urls_queued := S (urls_queued s) |}.

(** [Crawler.queue_url] *)
Definition queue_url (up_sadd up_lpush : bool) (url : string) (c : crawler)
  : bool * crawler :=
  let '(is_blocked, reason) := Blocklist.is_blocked (blocklist c) url in
  if is_blocked then (false, c)
  else
    let url_hash := get_url_hash url in
    if is_url_crawled url_hash c then (false, c)
    else
      let '(_, r) := Redis.enqueue_url up_sadd up_lpush url (redis c) in
      (true, {| redis := r; pages := pages c; blocklist := blocklist c;
                stat := count_queued (stat c) |}).

(** The [domain] column [Crawler.save_page] writes for [url]:
    [urlparse(url).netloc]; when parsing raises, the transaction is
    rolled back and nothing is stored. *)
Definition save_page_domain (url : string) : res string := UrlParse.netloc url.

(** [Crawler.__init__] on an empty store and an empty table *)
Definition fresh : crawler :=
  {| redis := Redis.empty; pages := ∅; blocklist := Blocklist.init;
     stat := {| pages_crawled := 0; pages_blocked := 0; pages_failed := 0;
                links_found := 0; urls_queued := 0 |} |}.

End Crawler.

(** ** Python numbers and JSON values *)
Module Json.
Import Py.

(** A Python [float]: not-a-number, an infinity, or a finite value given
    by the rational it denotes. *)
Inductive pyfloat : Type :=
  | FNan
  | FInf (negative : bool)
  | FFin (q : Q).

Inductive pynum : Type :=
  | NInt (z : Z)
  | NFloat (f : pyfloat).

(** What [json.loads] and [response.json()] produce.  A [dict] is the
    list of its items; [get] returns the first item under a key. *)
#[warnings="-register-all"] Inductive json : Type :=
  | JNull
  | JBool (b : bool)
  | JInt (z : Z)
  | JFloat (f : pyfloat)
  | JStr (s : string)
  | JArr (l : list json)
  | JObj (items : list (string * json)).

Fixpoint assoc (k : string) (items : list (string * json)) : option json :=
  match items with
  | [] => None
  | (k', v) :: r => if String.eqb k k' then Some v else assoc k r
  end.

(** [d.get(k, default)] *)
Definition get (k : string) (default : json) (items : list (string * json)) : json :=
  match assoc k items with
  | Some v => v
  | None => default
  end.

(** [a < b] on numbers; Python compares [int] and [float] exactly, and
    every comparison with not-a-number is false. *)
Definition lt_num (a b : pynum) : bool :=
  match a, b with
  | NInt x, NInt y => (x <? y)%Z
  | NInt x, NFloat (FFin q) => negb (Qle_bool q (inject_Z x))
  | NFloat (FFin q), NInt y => negb (Qle_bool (inject_Z y) q)
  | NFloat (FFin p), NFloat (FFin q) => negb (Qle_bool q p)
  | NFloat FNan, _ | _, NFloat FNan => false
  | NFloat (FInf n), NFloat (FInf m) => n && negb m
  | NFloat (FInf n), _ => n
  | _, NFloat (FInf m) => negb m
  end.

(** [a <= b] *)
Definition le_num (a b : pynum) : bool :=
  match a, b with
  | NInt x, NInt y => (x <=? y)%Z
  | NInt x, NFloat (FFin q) => Qle_bool (inject_Z x) q
  | NFloat (FFin q), NInt y => Qle_bool q (inject_Z y)
  | NFloat (FFin p), NFloat (FFin q) => Qle_bool p q
  | NFloat FNan, _ | _, NFloat FNan => false
  | NFloat (FInf n), NFloat (FInf m) => n || negb m
  | NFloat (FInf n), _ => n
  | _, NFloat (FInf m) => negb m
  end.

(** [min(a, b)] and [max(a, b)]: the first argument unless the second
    is strictly smaller (larger). *)
Definition min_num (a b : pynum) : pynum := if lt_num b a then b else a.
Definition max_num (a b : pynum) : pynum := if lt_num a b then b else a.

(** [int(x)]: truncation towards zero; not-a-number and the infinities
    raise. *)
Definition int_of (x : pynum) : res Z :=
  match x with
  | NInt z => Ok z
  | NFloat (FFin q) => Ok (Z.quot (Qnum q) (Zpos (Qden q)))
  | NFloat FNan => Raise (ValueError "cannot convert float NaN to integer")
  | NFloat (FInf _) => Raise (TypeError "cannot convert float infinity to integer")
  end.

(** The number an operand of [<=] stands for; other values raise
    [TypeError].  [True] and [False] count as 1 and 0. *)
Definition as_num (j : json) : res pynum :=
  match j with
  | JBool b => Ok (NInt (if b then 1 else 0)%Z)
  | JInt z => Ok (NInt z)
  | JFloat f => Ok (NFloat f)
  | _ => Raise (TypeError "'<=' not supported between these instances")
  end.

Definition json_of_num (x : pynum) : json :=
  match x with
  | NInt z => JInt z
  | NFloat f => JFloat f
  end.

(** truth value of an object, as [if x:] and [not x] take it *)
Definition truthy (j : json) : bool :=
  match j with
  | JNull => false
  | JBool b => b
  | JInt z => negb (z =? 0)%Z
  | JFloat (FFin q) => negb (Qeq_bool q 0)
  | JFloat _ => true
  | JStr s => negb (String.eqb s "")
  | JArr l => match l with [] => false | _ => true end
  | JObj m => match m with [] => false | _ => true end
  end.

End Json.

(** Sequencing of calls that may raise. *)
Definition bind {A B : Type} (x : Py.res A) (k : A -> Py.res B) : Py.res B :=
  match x with
  | Py.Ok a => k a
  | Py.Raise e => Py.Raise e
  end.

Notation "x <- e ;; k" := (bind e (fun x => k))
  (at level 100, e at next level, right associativity).

(** ** media_literacy_scorer.py *)
Module MediaLiteracy.
Import Py Json.

Definition red_flag_keywords : list string :=
  [
    "miracle cure"; "doctors hate"; "one weird trick";
    "scientists don't want you to know"; "big pharma";
    "they don't want you to"; "shocking truth"; "government hiding";
    "mainstream media lies"; "breakthrough discovery";
    "suppressed information"; "what they won't tell you"; "banned by";
    "secret that"; "industry doesn't want"; "proven to cure";
    "guaranteed results"; "new world order"; "illuminati"; "deep state";
    "false flag"; "crisis actors"; "hoax"; "cover up"; "conspiracy";
    "they're hiding"; "flat earth"; "earth is flat"; "globe lie";
    "moon landing fake"; "moon landing hoax"; "never went to moon";
    "chemtrails"; "chem trails"; "spraying chemicals"; "5g causes";
    "5g conspiracy"; "5g radiation"; "vaccines cause autism";
    "autism from vaccines"; "vaccine injury"; "anti-vax"; "anti-vaxx";
    "vaccine danger"; "vaccine poison"; "big pharma conspiracy";
    "pharmaceutical conspiracy"; "qanon"; "wwg1wga"; "trust the plan";
    "the storm"; "adrenochrome"; "pizzagate"; "pedophile ring";
    "covid hoax"; "plandemic"; "scamdemic"; "covid fake";
    "coronavirus hoax"; "virus doesn't exist"; "microchip vaccine";
    "vaccine tracking"; "bill gates microchip"; "lizard people";
    "reptilians"; "shape shifters"; "sandy hook hoax"; "parkland hoax";
    "shooting hoax"; "holocaust didn't happen"; "holocaust denial";
    "holocaust hoax"; "9/11 inside job"; "9/11 controlled demolition";
    "twin towers explosives"; "agenda 21"; "agenda 2030"; "un takeover";
    "jade helm"; "fema camps"; "martial law coming"; "crisis actor";
    "paid protesters"; "soros funded"; "george soros conspiracy";
    "soros controls"; "rothschild conspiracy"; "banking elite conspiracy";
    "freemasons control"; "satanic ritual"; "satanic panic";
    "be your own boss"; "financial freedom"; "work from home unlimited";
    "passive income guaranteed"; "join my team";
    "ground floor opportunity"; "unlimited earning potential";
    "retired at 30"; "detox"; "toxins"; "cleanse";
    "boost your immune system"; "natural alternative to";
    "big pharma doesn't want"; "FDA doesn't approve because";
    "alternative to chemotherapy"; "flat earth"; "moon landing fake";
    "holocaust hoax"; "crisis actors"; "false flag operation";
    "correlation equals causation"; "100% of people"; "studies show";
    "experts agree"; "research proves"; "science says"
  ].

Record stats : Type := {
  total_calls : nat;
  skipped_neutral : nat;
  analyzed : nat;
  errors : nat;
  fallback_used : nat
}.

Definition stats0 : stats :=
  {| total_calls := 0; skipped_neutral := 0; analyzed := 0; errors := 0;
     fallback_used := 0 |}.

(** [MediaLiteracyScorer.needs_analysis] *)
Definition needs_analysis (content : option string) (domain : string)
  : bool * list string :=
  match content with
  | None => (false, [])
  | Some content =>
      if (String.length content =? 0) || (String.length content <? 100)
      then (false, [])
      else
        let content_lower := lower content in
        let matched :=
          filter (fun keyword => contains keyword content_lower)
                 red_flag_keywords in
        let needs_ai := 2 <=? List.length matched in
        (needs_ai, matched)
  end.

(** The values [_build_analysis_prompt] puts into its fixed text. *)
Record prompt : Type := {
  prompt_title : string;
  prompt_domain : string;
  prompt_text : string
}.

Definition build_analysis_prompt (content : option string) (domain : string)
    (title : option string) : prompt :=
  {| prompt_title :=
       match title with
       | Some t => if String.eqb t "" then "No title" else t
       | None => "No title"
       end;
     prompt_domain := domain;
     prompt_text :=
       match content with
       | Some c => take 2500 c
       | None => ""
       end |}.

(** What [requests.post(...)] followed by [raise_for_status()] and
    [response.json()] comes to: a decoded body, or one of the three
    [except] branches of [_call_openrouter]. *)
Inductive http : Type :=
  | Body (result : json)
  | Failed.

(** The scorer's surroundings: the API key, the completion endpoint and
    [json.loads]. *)
Record world : Type := {
  api_key : option string;
  post : string -> prompt -> http;
  json_loads : string -> res json
}.

Definition primary_model : string := "google/gemini-2.5-flash-lite".
Definition fallback_model : string := "openrouter/auto".

(** The logging of token usage inside [_call_openrouter]'s [try]: it
    raises when [result] does not support ['usage' in result] or when
    [result['usage']] has no [get]. *)
Definition usage_logged (result : json) : bool :=
  match result with
  | JObj items =>
      match assoc "usage" items with
      | None => true
      | Some (JObj _) => true
      | Some _ => false
      end
  | JArr l => negb (existsb (fun x => match x with
                                       | JStr s => String.eqb s "usage"
                                       | _ => false
                                       end) l)
  | JStr s => negb (contains "usage" s)
  | _ => false
  end.

(** [MediaLiteracyScorer._call_openrouter]: [None] on any error *)
Definition call_openrouter (w : world) (p : prompt) (model : string)
  : option json :=
  match api_key w with
  | None => None
  | Some k =>
      if String.eqb k "" then None
      else
        match post w model p with
        | Failed => None
        | Body JNull => None
        | Body result => if usage_logged result then Some result else None
        end
  end.

(** [text.split(fence)[1]] for a [text] that starts with the fence: what
    lies between the first fence and the next one (or the end). *)
Fixpoint until_fence (s : string) : string :=
  match s with
  | EmptyString => EmptyString
  | String c r =>
      if startswith "```" s then EmptyString else String c (until_fence r)
  end.

Definition strip_code_fence (content_text : string) : string :=
  if startswith "```" content_text then
    let content_text := until_fence (drop 3 content_text) in
    let content_text :=
      if startswith "json" content_text then drop 4 content_text
      else content_text in
    strip content_text
  else content_text.

(** The first half of the [try] in [analyze_with_openrouter]: the
    items of the response and the text of its first choice, stripped
    and freed of a Markdown code fence. *)
Definition response_text (response : json)
  : res (list (string * json) * string) :=
  items <- match response with
           | JObj items => Ok items
           | _ => Raise (AttributeError "object has no attribute 'get'")
           end ;;
  let choices := get "choices" (JArr []) items in
  first <- (if truthy choices then
              match choices with
              | JArr (x :: _) => Ok x
              | JStr (String c _) => Ok (JStr (String c EmptyString))
              | JObj _ => Raise (KeyError "0")
              | _ => Raise (TypeError "object is not subscriptable")
              end
            else Raise (ValueError "No choices in response")) ;;
  message <- match first with
             | JObj m => Ok (get "message" (JObj []) m)
             | _ => Raise (AttributeError "object has no attribute 'get'")
             end ;;
  content <- match message with
             | JObj m => Ok (get "content" (JStr "") m)
             | _ => Raise (AttributeError "object has no attribute 'get'")
             end ;;
  content_text <- match content with
                  | JStr s => Ok (strip s)
                  | _ => Raise (AttributeError "object has no attribute 'strip'")
                  end ;;
  Ok (items, strip_code_fence content_text).

(** The range check on the score:
    [if not (0 <= score <= 100): score = max(0, min(100, score))] *)
Definition clamp (score : json) : res json :=
  n <- as_num score ;;
  Ok (if negb (le_num (NInt 0) n && le_num n (NInt 100))
      then json_of_num (max_num (NInt 0) (min_num (NInt 100) n))
      else score).

(** The second half: from the decoded analysis to the score and the
    detail dictionary. *)
Definition read_analysis (items : list (string * json)) (analysis : json)
  : res (Z * gmap string json) :=
  fields <- match analysis with
            | JObj m => Ok m
            | _ => Raise (AttributeError "object has no attribute 'get'")
            end ;;
  let score := get "credibility_score" (JInt 50) fields in
  score <- clamp score ;;
  let details : gmap string json :=
    list_to_map
      [("status", JStr "analyzed");
       ("model_used", get "model" (JStr primary_model) items);
       ("major_red_flags", get "major_red_flags" (JArr []) fields);
       ("minor_concerns", get "minor_concerns" (JArr []) fields);
       ("explanation", get "explanation" (JStr "") fields);
       ("context_box_needed", get "context_box_needed" (JBool false) fields);
       ("context_box_text", get "context_box_text" (JStr "") fields);
       ("raw_score", score)] in
  n <- as_num score ;;
  z <- int_of n ;;
  Ok (z, details).

(** The body of the [try] in [analyze_with_openrouter]: the score and
    the detail dictionary, or the exception raised on the way. *)
Definition extract_analysis (w : world) (response : json)
  : res (Z * gmap string json) :=
  p <- response_text response ;;
  analysis <- json_loads w (snd p) ;;
  read_analysis (fst p) analysis.

(** The primary model's answer, or else the fallback's; the flag tells
    whether the fallback was tried. *)
Definition first_response (w : world) (p : prompt) : option json * bool :=
  match call_openrouter w p primary_model with
  | Some r => (Some r, false)
  | None => (call_openrouter w p fallback_model, true)
  end.

Definition count_error (s : stats) : stats :=
  {| total_calls := total_calls s; skipped_neutral := skipped_neutral s;
     analyzed := analyzed s; errors := S (errors s);
     fallback_used := fallback_used s |}.

Definition count_analyzed (s : stats) : stats :=
  {| total_calls := total_calls s; skipped_neutral := skipped_neutral s;
     analyzed := S (analyzed s); errors := errors s;
     fallback_used := fallback_used s |}.

Definition count_fallback (s : stats) : stats :=
  {| total_calls := total_calls s; skipped_neutral := skipped_neutral s;
     analyzed := analyzed s; errors := errors s;
     fallback_used := S (fallback_used s) |}.

Definition count_call (s : stats) : stats :=
  {| total_calls := S (total_calls s); skipped_neutral := skipped_neutral s;
     analyzed := analyzed s; errors := errors s;
     fallback_used := fallback_used s |}.

Definition count_skipped (s : stats) : stats :=
  {| total_calls := total_calls s; skipped_neutral := S (skipped_neutral s);
     analyzed := analyzed s; errors := errors s;
     fallback_used := fallback_used s |}.

(** [MediaLiteracyScorer.analyze_with_openrouter] *)
Definition analyze_with_openrouter (w : world) (content : option string)
    (domain : string) (title : option string) (s : stats)
  : Z * gmap string json * stats :=
  let p := build_analysis_prompt content domain title in
  let '(response, fell_back) := first_response w p in
  let s := if fell_back then count_fallback s else s in
  match response with
  | None =>
      (50%Z,
       list_to_map [("status", JStr "error");
                    ("error", JStr "API unavailable");
                    ("fallback_reason", JStr "Both models failed")],
       count_error s)
  | Some response =>
      match extract_analysis w response with
      | Ok (score, details) => (score, details, count_analyzed s)
      | Raise (JSONDecodeError _) =>
          (50%Z,
           list_to_map [("status", JStr "error");
                        ("error", JStr "Invalid JSON response");
                        ("raw_response",
                         JStr (match response_text response with
                               | Ok (_, content_text) => take 200 content_text
                               | Raise _ => ""
                               end))],
           count_error s)
      | Raise e =>
          (50%Z,
           list_to_map [("status", JStr "error");
                        ("error", JStr (str_of_exn e))],
           count_error s)
      end
  end.

(** [MediaLiteracyScorer.calculate_media_literacy_score] *)
Definition calculate_media_literacy_score (w : world)
    (content : option string) (domain : string) (title : option string)
    (s : stats) : Z * gmap string json * stats :=
  let s := count_call s in
  let '(needs_ai, matched_keywords) := needs_analysis content domain in
  if negb needs_ai then
    (50%Z,
     list_to_map [("status", JStr "neutral");
                  ("reason", JStr "No red flag keywords detected");
                  ("skipped_analysis", JBool true)],
     count_skipped s)
  else
    let '(score, details, s) :=
      analyze_with_openrouter w content domain title s in
    (score,
     <["triggered_by" := JArr (map JStr (firstn 10 matched_keywords))]> details,
     s).

End MediaLiteracy.

(** ** composite_scorer.py *)
Module Composite.
Import Py Json.

(** *** binary64 arithmetic of the weighted sum *)

(** [float(z)], exact for the integers a score can take *)
Definition float_of_Z (z : Z) : float :=
  if (z <? 0)%Z then PrimFloat.opp (PrimFloat.of_uint63 (Uint63.of_Z (- z)))
  else PrimFloat.of_uint63 (Uint63.of_Z z).

(** the integer nearest to [m * 2^e], ties going to the even one *)
Definition round_half_even (m : positive) (e : Z) : Z :=
  if (0 <=? e)%Z then Zpos m * 2 ^ e
  else
    let d := (2 ^ (- e))%Z in
    let q := (Zpos m / d)%Z in
    let r := (Zpos m mod d)%Z in
    if (2 * r <? d)%Z then q
    else if (d <? 2 * r)%Z then (q + 1)%Z
    else if Z.even q then q else (q + 1)%Z.

(** [int(round(x))] *)
Definition py_round (x : float) : res Z :=
  match Prim2SF x with
  | S754_zero _ => Ok 0%Z
  | S754_finite s m e =>
      Ok (if s then - round_half_even m e else round_half_even m e)%Z
  | S754_infinity _ =>
      Raise (TypeError "cannot convert float infinity to integer")
  | S754_nan => Raise (ValueError "cannot convert float NaN to integer")
  end.

(** [int(x)] for a float: truncation towards zero *)
Definition py_trunc (x : float) : res Z :=
  match Prim2SF x with
  | S754_zero _ => Ok 0%Z
  | S754_finite s m e =>
      let a := (if (0 <=? e)%Z then Zpos m * 2 ^ e
                else Zpos m / 2 ^ (- e))%Z in
      Ok (if s then - a else a)%Z
  | S754_infinity _ =>
      Raise (TypeError "cannot convert float infinity to integer")
  | S754_nan => Raise (ValueError "cannot convert float NaN to integer")
  end.

(** the exact value of a float, for the detail dictionaries *)
Definition pyfloat_of (x : float) : pyfloat :=
  match Prim2SF x with
  | S754_zero _ => FFin 0
  | S754_finite s m e =>
      let q := if (0 <=? e)%Z then inject_Z (Zpos m * 2 ^ e)
               else Qmake (Zpos m) (Z.to_pos (2 ^ (- e))) in
      FFin (if s then Qopp q else q)
  | S754_infinity s => FInf s
  | S754_nan => FNan
  end.

(** An alignment score: [int] or [float]. *)
Inductive score : Type :=
  | SInt (z : Z)
  | SFloat (f : float).

Definition float_of_score (x : score) : float :=
  match x with
  | SInt z => float_of_Z z
  | SFloat f => f
  end.

Definition int_of_score (x : score) : res Z :=
  match x with
  | SInt z => Ok z
  | SFloat f => py_trunc f
  end.

Definition json_of_score (x : score) : json :=
  match x with
  | SInt z => JInt z
  | SFloat f => JFloat (pyfloat_of f)
  end.

(** [(islamic_score + 100) / 2] *)
Definition normalize_islamic (islamic_score : score) : float :=
  match islamic_score with
  | SInt z => PrimFloat.div (float_of_Z (z + 100)) 2%float
  | SFloat f => PrimFloat.div (PrimFloat.add f 100%float) 2%float
  end.

(** the weighted sum of [calculate_composite_score] *)
#[warnings="-inexact-float"] Definition weighted_sum (islamic_normalized : float)
    (quality_score authority_score media_score equity_boost : Z) : float :=
  (islamic_normalized * 0.30
   + float_of_Z quality_score * 0.25
   + float_of_Z authority_score * 0.20
   + float_of_Z media_score * 0.15
   + float_of_Z equity_boost * 0.10)%float.

(** *** the relational store *)

Record org_row : Type := {
  splc_flagged : bool;
  aclu_flagged : bool;
  cair_flagged : bool;
  adl_flagged : bool;
  other_org_flagged : bool;
  reason : option string
}.

(** the score columns of a row of [pages] *)
Record score_cols : Type := {
  c_islamic_alignment_score : json;
  c_quality_score : json;
  c_authority_score : json;
  c_media_literacy_score : json;
  c_equity_boost : json;
  c_final_composite_score : json;
  c_indexable : json;
  c_scored_at : json
}.

Record page_row : Type := {
  p_url : string;
  p_domain : string;
  p_crawled_at : option Z;
  p_scores : option score_cols
}.

Record log_row : Type := {
  l_page_id : json;
  l_url : json;
  l_islamic_alignment_score : json;
  l_islamic_themes_matched : json;
  l_quality_score : json;
  l_quality_details : json;
  l_authority_score : json;
  l_equity_boost : json;
  l_media_literacy_score : json;
  l_final_composite_score : json;
  l_indexable : json;
  l_blocklist_reason : json;
  l_scored_at : json
}.

(** Tables [org_blocklist] (by domain), [pages] (by id) and
    [page_scoring_logs]; [db_up] tells whether a statement reaches the
    server or raises. *)
Record database : Type := {
  db_up : bool;
  org_blocklist : gmap string org_row;
  pages : gmap Z page_row;
  page_scoring_logs : list log_row
}.

(** [SELECT MIN(crawled_at) FROM pages WHERE domain = d] *)
Definition first_seen (db : database) (d : string) : option Z :=
  map_fold
    (fun _ row acc =>
       if String.eqb (p_domain row) d then
         match p_crawled_at row, acc with
         | Some t, Some t' => Some (Z.min t t')
         | Some t, None => Some t
         | None, _ => acc
         end
       else acc)
    None (pages db).

(** *** the scorer and its surroundings *)

(** The clock, the optional [textstat] package, the three dimension
    scorers this development leaves open (each returns its score and
    its details, or raises), and the media-literacy scorer's world. *)
Record world : Type := {
  now : Z;
  textstat : option (string -> res Q);
  calculate_islamic_alignment : option string -> string -> res (score * json);
  calculate_authority_score : string -> string -> res (Z * json);
  calculate_equity_boost : string -> res (Z * json);
  media_world : MediaLiteracy.world
}.

(** [CompositeScorer] instance state: the org-blocklist cache, and the
    counters of the media-literacy scorer it shares. *)
Record scorer : Type := {
  blocklist_cache : gmap string (bool * option string);
  media_stats : MediaLiteracy.stats
}.

Definition new_scorer : scorer :=
  {| blocklist_cache := ∅; media_stats := MediaLiteracy.stats0 |}.

(** [urlparse(domain if '://' in domain else f'https://{domain}').netloc] *)
Definition netloc_of_domain (domain : string) : res string :=
  UrlParse.netloc (if contains "://" domain then domain
                   else "https://" +:+ domain).

(** [parsed.netloc.lower().replace('www.', '')] *)
Definition domain_clean (domain : string) : res string :=
  nl <- netloc_of_domain domain ;;
  Ok (remove_all "www." (lower nl)).

Definition flag_names (r : org_row) : list string :=
  (if splc_flagged r then ["SPLC"] else [])
  ++ (if aclu_flagged r then ["ACLU"] else [])
  ++ (if cair_flagged r then ["CAIR"] else [])
  ++ (if adl_flagged r then ["ADL"] else [])
  ++ (if other_org_flagged r then ["Other"] else []).

Definition any_flag (r : org_row) : bool :=
  splc_flagged r || aclu_flagged r || cair_flagged r || adl_flagged r
  || other_org_flagged r.

Definition block_reason (r : org_row) : string :=
  let base := "Flagged by: " +:+ join ", " (flag_names r) in
  match reason r with
  | Some txt => if String.eqb txt "" then base else base +:+ " - " +:+ txt
  | None => base
  end.

(** Calls on the scorer: they may raise, and they may update the
    instance, whose state survives an exception. *)
Definition M (A : Type) : Type := scorer -> res A * scorer.

Definition ret {A : Type} (a : A) : M A := fun sc => (Ok a, sc).

Definition lift {A : Type} (r : res A) : M A := fun sc => (r, sc).

Definition bindM {A B : Type} (m : M A) (k : A -> M B) : M B :=
  fun sc =>
    match m sc with
    | (Ok a, sc') => k a sc'
    | (Raise e, sc') => (Raise e, sc')
    end.

Notation "x <-- e ;; k" := (bindM e (fun x => k))
  (at level 100, e at next level, right associativity).

(** [CompositeScorer.check_org_blocklist] *)
Definition check_org_blocklist (db : database) (domain : string)
  : M (bool * option string) :=
  d <-- lift (domain_clean domain) ;;
  fun sc =>
    match blocklist_cache sc !! d with
    | Some cached => (Ok cached, sc)
    | None =>
        if db_up db then
          let answer :=
            match org_blocklist db !! d with
            | None => (false, None)
            | Some row =>
                if any_flag row then (true, Some (block_reason row))
                else (false, None)
            end in
          (Ok answer,
           {| blocklist_cache := <[d := answer]> (blocklist_cache sc);
              media_stats := media_stats sc |})
        else (Ok (false, None), sc)
    end.

(** *** quality *)

Definition float_of_nat (n : nat) : float := float_of_Z (Z.of_nat n).

(** [CompositeScorer._calculate_readability] *)
Definition calculate_readability (w : world) (content : string) : Z :=
  let approximation :=
    let words := split_ws content in
    let sentences :=
      count_char "." content + count_char "!" content
      + count_char "?" content in
    if sentences =? 0 then 5%Z
    else
      let avg_words_per_sentence :=
        PrimFloat.div (float_of_nat (List.length words))
                      (float_of_nat sentences) in
      if PrimFloat.leb avg_words_per_sentence 15%float then 15%Z
      else if PrimFloat.leb avg_words_per_sentence 25%float then 10%Z
      else 5%Z in
  match textstat w with
  | Some flesch_reading_ease =>
      match flesch_reading_ease content with
      | Ok ease =>
          if Qle_bool 60 ease then 15%Z
          else if Qle_bool 30 ease then 10%Z
          else 5%Z
      | Raise _ => approximation
      end
  | None => approximation
  end.

(** [CompositeScorer._calculate_content_length_score] *)
Definition calculate_content_length_score (content : string) : Z :=
  let word_count := List.length (split_ws content) in
  if word_count <? 100 then 0%Z
  else if word_count <? 500 then 5%Z
  else if word_count <=? 2000 then 10%Z
  else 8%Z.

Definition newline : ascii := ascii_of_nat 10.

(** [CompositeScorer._calculate_structural_quality] *)
#[warnings="-inexact-float"] Definition calculate_structural_quality (content : string) : Z :=
  let lines := split_char newline content in
  let has_structure :=
    existsb (fun line => (String.length line <? 100) && isupper line) lines in
  let words := split_ws (lower content) in
  let heading_points := if has_structure then 5%Z else 0%Z in
  let paragraph_points :=
    if 5 <? count_char newline content then 5%Z else 0%Z in
  let variety_points :=
    if 50 <? List.length words then
      let unique_ratio :=
        PrimFloat.div (float_of_nat (count_distinct words))
                      (float_of_nat (List.length words)) in
      if PrimFloat.ltb 0.4%float unique_ratio then 5%Z else 0%Z
    else 0%Z in
  (heading_points + paragraph_points + variety_points)%Z.

(** the grammar/uniqueness points of [calculate_quality_score] *)
Definition grammar_score (content : string) : res Z :=
  let words := split_ws content in
  if 50 <? List.length words then
    let unique_ratio :=
      PrimFloat.div (float_of_nat (count_distinct words))
                    (float_of_nat (List.length words)) in
    n <- py_trunc (PrimFloat.mul unique_ratio 20%float) ;;
    Ok (Z.min 15 n)
  else Ok 5%Z.

(** [CompositeScorer._get_domain_age_score] *)
Definition get_domain_age_score (w : world) (db : database) (domain : string) : Z :=
  match netloc_of_domain domain with
  | Raise _ => 5%Z
  | Ok d =>
      if db_up db then
        match first_seen db d with
        | None => 5%Z
        | Some first =>
            let days := ((now w - first) / 86400)%Z in
            if (days <? 7)%Z then 0%Z
            else if (days <? 30)%Z then 5%Z
            else if (days <? 90)%Z then 10%Z
            else 15%Z
        end
      else 5%Z
  end.

(** [not content or len(content.strip()) < 50] *)
Definition too_short (content : option string) : bool :=
  match content with
  | None => true
  | Some c => (String.length c =? 0) || (String.length (strip c) <? 50)
  end.

(** the test of the SSL check: ['https://' in domain.lower()] *)
Definition has_ssl (domain : string) : bool :=
  contains "https://" (lower domain).

(** part A of [calculate_quality_score]: the content quality points *)
Definition content_quality (w : world) (text : string) (grammar : Z) : Z :=
  (calculate_readability w text + calculate_content_length_score text
   + calculate_structural_quality text + grammar)%Z.

(** [CompositeScorer.calculate_quality_score] *)
Definition calculate_quality_score (w : world) (db : database)
    (content : option string) (domain : string) (title : option string)
  : res (Z * gmap string json) :=
  match content with
  | Some text =>
      if too_short content then
        Ok (0%Z, {[ "reason" := JStr "content_too_short" ]})
      else
        let readability := calculate_readability w text in
        let length_score := calculate_content_length_score text in
        let structural := calculate_structural_quality text in
        grammar <- grammar_score text ;;
        let total_score := content_quality w text grammar in
        let technical_score := 0%Z in
        let technical_score :=
          if has_ssl domain then (technical_score + 10)%Z
          else technical_score in
        let domain_age_score := get_domain_age_score w db domain in
        let technical_score := (technical_score + domain_age_score)%Z in
        let technical_score := (technical_score + 5)%Z in
        let total_score := (total_score + technical_score)%Z in
        let details : gmap string json :=
          list_to_map
            [("readability", JInt readability);
             ("content_length", JInt length_score);
             ("structural_quality", JInt structural);
             ("grammar_uniqueness", JInt grammar);
             ("has_ssl", JBool (has_ssl domain));
             ("domain_age_score", JInt domain_age_score);
             ("mobile_optimized", JBool true);
             ("total", JInt (Z.min 100 total_score))] in
        Ok (Z.min 100 total_score, details)
  | None => Ok (0%Z, {[ "reason" := JStr "content_too_short" ]})
  end.

(** the freshness points, from the age of [crawled_at] in days *)
Definition freshness (w : world) (crawled_at : Z) : Z :=
  let days := ((now w - crawled_at) / 86400)%Z in
  if (days <? 30)%Z then 15%Z
  else if (days <? 90)%Z then 10%Z
  else if (days <? 365)%Z then 5%Z
  else 2%Z.

(** *** the composite *)

Definition dict_json (d : gmap string json) : json := JObj (map_to_list d).

Definition json_of_reason (r : option string) : json :=
  match r with
  | Some txt => JStr txt
  | None => JNull
  end.

(** [CompositeScorer.calculate_composite_score] *)
Definition calculate_composite_score (w : world) (db : database)
    (page_id : Z) (url : string) (title content : option string)
    (domain : string) (crawled_at : option Z) : M (gmap string json) :=
  let result : gmap string json :=
    list_to_map [("page_id", JInt page_id); ("url", JStr url);
                 ("scored_at", JInt (now w))] in
  blocked <-- check_org_blocklist db domain ;;
  let '(is_blocked, block_reason) := blocked in
  if is_blocked then
    let result := <["final_composite_score" := JInt 0]> result in
    let result := <["indexable" := JBool false]> result in
    let result := <["blocklist_reason" := json_of_reason block_reason]> result in
    let result :=
      <["components" := JObj [("org_blocked", JBool true);
                              ("reason", json_of_reason block_reason)]]> result in
    ret result
  else
    islamic <-- lift (calculate_islamic_alignment w content domain) ;;
    let '(islamic_score, islamic_details) := islamic in
    let islamic_normalized := normalize_islamic islamic_score in
    quality <-- lift (calculate_quality_score w db content domain title) ;;
    let '(quality_score, quality_details) := quality in
    let '(quality_score, quality_details) :=
      match crawled_at with
      | Some t =>
          (Z.min 100 (quality_score + freshness w t),
           <["freshness" := JInt (freshness w t)]> quality_details)
      | None => (quality_score, quality_details)
      end in
    authority <-- lift (calculate_authority_score w url domain) ;;
    let '(authority_score, authority_details) := authority in
    media <-- (fun sc =>
                 let '(media_score, media_details, ms) :=
                   MediaLiteracy.calculate_media_literacy_score
                     (media_world w) content domain title (media_stats sc) in
                 (Ok (media_score, media_details),
                  {| blocklist_cache := blocklist_cache sc;
                     media_stats := ms |})) ;;
    let '(media_score, media_details) := media in
    equity <-- lift (calculate_equity_boost w domain) ;;
    let '(equity_boost, equity_details) := equity in
    let composite :=
      weighted_sum islamic_normalized quality_score authority_score
                   media_score equity_boost in
    final_score <-- lift (py_round composite) ;;
    let indexable := (25 <=? final_score)%Z in
    islamic_int <-- lift (int_of_score islamic_score) ;;
    let components :=
      JObj [("islamic_alignment",
             JObj [("raw_score", json_of_score islamic_score);
                   ("normalized_score", JFloat (pyfloat_of islamic_normalized));
                   ("details", islamic_details)]);
            ("quality",
             JObj [("score", JInt quality_score);
                   ("details", dict_json quality_details)]);
            ("authority",
             JObj [("score", JInt authority_score);
                   ("details", authority_details)]);
            ("media_literacy",
             JObj [("score", JInt media_score);
                   ("details", dict_json media_details)]);
            ("equity_boost",
             JObj [("boost", JInt equity_boost);
                   ("details", equity_details)])] in
    let result := <["islamic_alignment_score" := JInt islamic_int]> result in
    let result := <["quality_score" := JInt quality_score]> result in
    let result := <["authority_score" := JInt authority_score]> result in
    let result := <["media_literacy_score" := JInt media_score]> result in
    let result := <["equity_boost" := JInt equity_boost]> result in
    let result := <["final_composite_score" := JInt final_score]> result in
    let result := <["indexable" := JBool indexable]> result in
    let result := <["blocklist_reason" := JNull]> result in
    let result := <["components" := components]> result in
    ret result.

(** *** persistence *)

(** [d[k]] *)
Definition getitem (k : string) (d : gmap string json) : res json :=
  match d !! k with
  | Some v => Ok v
  | None => Raise (KeyError k)
  end.

(** [json.dumps(components.get(part, {}).get('details', {}))], kept as
    the value that is serialised *)
Definition details_of (part : string) (components : json) : res json :=
  match components with
  | JObj items =>
      match get part (JObj []) items with
      | JObj sub => Ok (get "details" (JObj []) sub)
      | _ => Raise (AttributeError "object has no attribute 'get'")
      end
  | _ => Raise (AttributeError "object has no attribute 'get'")
  end.

(** [UPDATE pages SET ... WHERE id = page_id] *)
Definition update_page (page_id : json) (cols : score_cols) (db : database)
  : res database :=
  if db_up db then
    Ok {| db_up := db_up db;
          org_blocklist := org_blocklist db;
          pages :=
            match page_id with
            | JInt id =>
                alter (fun row => {| p_url := p_url row;
                                     p_domain := p_domain row;
                                     p_crawled_at := p_crawled_at row;
                                     p_scores := Some cols |}) id (pages db)
            | _ => pages db
            end;
          page_scoring_logs := page_scoring_logs db |}
  else Raise (ConnectionError "connection already closed").

(** [INSERT INTO page_scoring_logs ...] *)
Definition insert_log (row : log_row) (db : database) : res database :=
  if db_up db then
    Ok {| db_up := db_up db;
          org_blocklist := org_blocklist db;
          pages := pages db;
          page_scoring_logs := page_scoring_logs db ++ [row] |}
  else Raise (ConnectionError "connection already closed").

(** the two statements of [save_scores_to_db], inside its [try] *)
Definition save_statements (result : gmap string json) (db : database)
  : res database :=
  isl <- getitem "islamic_alignment_score" result ;;
  qual <- getitem "quality_score" result ;;
  auth <- getitem "authority_score" result ;;
  media <- getitem "media_literacy_score" result ;;
  equity <- getitem "equity_boost" result ;;
  final <- getitem "final_composite_score" result ;;
  indexable <- getitem "indexable" result ;;
  scored_at <- getitem "scored_at" result ;;
  page_id <- getitem "page_id" result ;;
  db <- update_page page_id
          {| c_islamic_alignment_score := isl;
             c_quality_score := qual;
             c_authority_score := auth;
             c_media_literacy_score := media;
             c_equity_boost := equity;
             c_final_composite_score := final;
             c_indexable := indexable;
             c_scored_at := scored_at |} db ;;
  components <- getitem "components" result ;;
  url <- getitem "url" result ;;
  themes <- details_of "islamic_alignment" components ;;
  quality_details <- details_of "quality" components ;;
  insert_log
    {| l_page_id := page_id;
       l_url := url;
       l_islamic_alignment_score := isl;
       l_islamic_themes_matched := themes;
       l_quality_score := qual;
       l_quality_details := quality_details;
       l_authority_score := auth;
       l_equity_boost := equity;
       l_media_literacy_score := media;
       l_final_composite_score := final;
       l_indexable := indexable;
       l_blocklist_reason :=
         match result !! "blocklist_reason" with
         | Some v => v
         | None => JNull
         end;
       l_scored_at := scored_at |} db.

(** [CompositeScorer.save_scores_to_db]: commit, or roll back and raise
    again *)
Definition save_scores_to_db (result : gmap string json) (db : database)
  : res unit * database :=
  match save_statements result db with
  | Ok db' => (Ok tt, db')
  | Raise e => (Raise e, db)
  end.

(** [CompositeScorer.score_page] *)
Definition score_page (w : world) (page_id : Z) (url : string)
    (title content : option string) (domain : string)
    (crawled_at : option Z) (sc : scorer) (db : database)
  : res json * scorer * database :=
  match calculate_composite_score w db page_id url title content domain
          crawled_at sc with
  | (Raise e, sc') => (Raise e, sc', db)
  | (Ok result, sc') =>
      match save_scores_to_db result db with
      | (Raise e, db') => (Raise e, sc', db')
      | (Ok _, db') => (getitem "final_composite_score" result, sc', db')
      end
  end.

End Composite.

(** ** composite_scorer.py: authority and equity boost *)
Module Dimensions.
Import Py Json.

(** [CompositeScorer._get_tld_score]; [urlparse] may raise. *)
Definition get_tld_score (domain : string) : res Z :=
  nl <- Composite.netloc_of_domain domain ;;
  let domain_clean := lower nl in
  Ok (if endswith ".gov" domain_clean then 50
      else if endswith ".edu" domain_clean then 45
      else if endswith ".ac.uk" domain_clean || endswith ".ac.in" domain_clean
              || endswith ".edu.au" domain_clean then 45
      else if endswith ".org" domain_clean then 30
      else if endswith ".com" domain_clean || endswith ".net" domain_clean
           then 20
      else 10)%Z.

(** What the database answers to the three [COUNT] queries on a target
    URL, or the exception the query raises. *)
Record link_counts : Type := {
  backlink_count : string -> res nat;
  edu_refs : string -> res nat;
  gov_refs : string -> res nat
}.

(** [CompositeScorer._get_backlink_score] *)
Definition get_backlink_score (q : link_counts) (url : string) : Z :=
  match backlink_count q url with
  | Raise _ => 0%Z
  | Ok n =>
      if n =? 0 then 0%Z
      else if n <=? 5 then 10%Z
      else if n <=? 20 then 20%Z
      else 30%Z
  end.

(** [CompositeScorer._get_external_authority_score]: both queries run
    inside one [try]; when either raises the answer is 0. *)
Definition get_external_authority_score (q : link_counts) (url domain : string)
  : Z :=
  match edu_refs q url with
  | Raise _ => 0%Z
  | Ok edu =>
      let score := if 0 <? edu then 10%Z else 0%Z in
      match gov_refs q url with
      | Raise _ => 0%Z
      | Ok gov =>
          let score := if 0 <? gov then (score + 10)%Z else score in
          Z.min 20 score
      end
  end.

(** An entry of [_domain_authority_cache]; times are microseconds. *)
Record cached : Type := {
  c_score : Z;
  c_details : json;
  c_timestamp : Z
}.

(** [(later - earlier).days] *)
Definition days_between (later earlier : Z) : Z :=
  ((later - earlier) / 86400000000)%Z.

(** [CompositeScorer.calculate_authority_score].  [now_check] and
    [now_store] are the two readings of [datetime.now()]. *)
Definition calculate_authority_score (q : link_counts) (now_check now_store : Z)
    (url domain : string) (cache : gmap string cached)
  : res (Z * json) * gmap string cached :=
  let compute :=
    match get_tld_score domain with
    | Raise e => (Raise e, cache)
    | Ok tld_score =>
        let backlink_score := get_backlink_score q url in
        let external_score := get_external_authority_score q url domain in
        let total := (tld_score + backlink_score + external_score)%Z in
        let details :=
          JObj [("tld_score", JInt tld_score);
                ("backlink_score", JInt backlink_score);
                ("external_authority_score", JInt external_score);
                ("total", JInt total)] in
        (Ok (total, details),
         <[domain := {| c_score := total; c_details := details;
                        c_timestamp := now_store |}]> cache)
    end in
  match cache !! domain with
  | Some entry =>
      if (days_between now_check (c_timestamp entry) <? 7)%Z
      then (Ok (c_score entry, c_details entry), cache)
      else compute
  | None => compute
  end.

(** A row of table [equity_domains]; a NULL flag counts as false. *)
Record equity_row : Type := {
  minority_owned : bool;
  women_owned : bool;
  veteran_owned : bool;
  b_corp : bool;
  lgbtq_owned : bool;
  disability_owned : bool
}.

Definition certified (flag : bool) (points : Z) (key : string)
    (acc : Z * list (string * json)) : Z * list (string * json) :=
  if flag then ((fst acc + points)%Z, (snd acc ++ [(key, JBool true)])%list)
  else acc.

(** The boost and the details for a listed domain *)
Definition boost_of (r : equity_row) : Z * json :=
  let acc := (0%Z, []) in
  let acc := certified (minority_owned r) 15 "minority_owned" acc in
  let acc := certified (women_owned r) 15 "women_owned" acc in
  let acc := certified (veteran_owned r) 15 "veteran_owned" acc in
  let acc := certified (b_corp r) 10 "b_corp" acc in
  let acc := certified (lgbtq_owned r) 15 "lgbtq_owned" acc in
  let acc := certified (disability_owned r) 15 "disability_owned" acc in
  let boost := Z.min 30 (fst acc) in
  (boost, JObj (snd acc ++ [("total_boost", JInt boost)])).

(** [CompositeScorer.calculate_equity_boost].  [query d] is the row the
    [SELECT] finds for [d], if any, or the exception it raises. *)
Definition calculate_equity_boost (query : string -> res (option equity_row))
    (domain : string) (cache : gmap string (Z * json))
  : res (Z * json) * gmap string (Z * json) :=
  match Composite.domain_clean domain with
  | Raise e => (Raise e, cache)
  | Ok d =>
      match cache !! d with
      | Some entry => (Ok entry, cache)
      | None =>
          match query d with
          | Raise e => (Ok (0%Z, JObj [("error", JStr (str_of_exn e))]), cache)
          | Ok None =>
              let result := (0%Z, JObj [("reason", JStr "not_in_equity_list")]) in
              (Ok result, <[d := result]> cache)
          | Ok (Some row) =>
              let result := boost_of row in
              (Ok result, <[d := result]> cache)
          end
      end
  end.

End Dimensions.

(** ** crawler.py: crawling one URL, and the crawl loop

    Reads of table [pages] succeed; table [links], which only
    [save_links] touches, is left out. *)
Module Worker.
Import Py Crawler.

(** A [requests.Response], as far as the crawler reads it *)
Record response : Type := {
  r_url : string;
  r_text : string
}.

(** What [BeautifulSoup] yields once the script, style, nav, footer and
    header elements are removed: [soup.title.string] if there is one,
    [soup.get_text(separator=' ', strip=True)], and for every anchor
    with an [href] that attribute and [link.get_text(strip=True)]. *)
Record soup : Type := {
  title_string : option string;
  get_text : string;
  anchors : list (string * string)
}.

Record link : Type := {
  l_url : string;
  l_text : option string
}.

Record extracted : Type := {
  e_title : option string;
  e_content : string;
  e_links : list link
}.

(** What one call of [crawl_url] meets outside the crawler: the verdict
    of robots.txt, the page [fetch_page] gets (or [None]), the parser,
    [urljoin], the id the [INSERT] of [save_page] returns (or [None]
    when the statement fails), and whether the frontier store is
    reachable for the [SADD] and the [LPUSH] of the n-th link. *)
Record web : Type := {
  can_fetch : string -> bool;
  fetch_page : string -> option response;
  parse : string -> res soup;
  urljoin : string -> string -> res string;
  insert_page : string -> option Z;
  link_up : nat -> bool * bool
}.

(** [href.startswith(('mailto:', 'tel:', 'javascript:'))] *)
Definition skipped (href : string) : bool :=
  startswith "mailto:" href || startswith "tel:" href
  || startswith "javascript:" href.

Fixpoint extract_links (w : web) (base_url : string)
    (found : list (string * string)) : res (list link) :=
  match found with
  | [] => Ok []
  | (href, link_text) :: rest =>
      if skipped href then extract_links w base_url rest
      else
        absolute_url <- urljoin w base_url href ;;
        links <- extract_links w base_url rest ;;
        Ok ({| l_url := normalize_url absolute_url;
               l_text := if String.eqb link_text "" then None
                         else Some (take 500 link_text) |} :: links)
  end.

(** [Crawler.extract_content] *)
Definition extract_content (w : web) (html base_url : string)
  : option extracted :=
  match parse w html with
  | Raise _ => None
  | Ok s =>
      let title :=
        match title_string s with
        | Some t => if String.eqb t "" then None else Some (strip t)
        | None => None
        end in
      let text_content := join " " (split_ws (get_text s)) in
      match extract_links w base_url (anchors s) with
      | Raise _ => None
      | Ok links =>
          Some {| e_title :=
                    match title with
                    | Some t =>
                        if String.eqb t "" then None else Some (take 500 t)
                    | None => None
                    end;
                  e_content := take 50000 text_content;
                  e_links := links |}
      end
  end.

(** [Crawler.save_page]: the upsert on [url_hash], and the id it
    returns *)
Definition save_page (w : web) (url url_hash : string) (c : crawler)
  : option Z * crawler :=
  match save_page_domain url with
  | Raise _ => (None, c)
  | Ok _ =>
      match insert_page w url with
      | Some page_id =>
          (Some page_id,
           {| redis := redis c; pages := {[ url_hash ]} ∪ pages c;
              blocklist := blocklist c; stat := stat c |})
      | None => (None, c)
      end
  end.

Definition with_stat (s : stats) (c : crawler) : crawler :=
  {| redis := redis c; pages := pages c; blocklist := blocklist c;
     stat := s |}.

Definition count_blocked (c : crawler) : crawler :=
  with_stat {| pages_crawled := pages_crawled (stat c);
               pages_blocked := S (pages_blocked (stat c));
               pages_failed := pages_failed (stat c);
               links_found := links_found (stat c);
               urls_queued := urls_queued (stat c) |} c.

Definition count_failed (c : crawler) : crawler :=
  with_stat {| pages_crawled := pages_crawled (stat c);
               pages_blocked := pages_blocked (stat c);
               pages_failed := S (pages_failed (stat c));
               links_found := links_found (stat c);
               urls_queued := urls_queued (stat c) |} c.

Definition count_crawled (links : nat) (c : crawler) : crawler :=
  with_stat {| pages_crawled := S (pages_crawled (stat c));
               pages_blocked := pages_blocked (stat c);
               pages_failed := pages_failed (stat c);
               links_found := links_found (stat c) + links;
               urls_queued := urls_queued (stat c) |} c.

(** [for link in extracted['links']: self.queue_url(link['url'])],
    from the [n]-th link on *)
Fixpoint queue_links (w : web) (n : nat) (links : list link) (c : crawler)
  : crawler :=
  match links with
  | [] => c
  | l :: rest =>
      let '(up_sadd, up_lpush) := link_up w n in
      queue_links w (S n) rest (snd (queue_url up_sadd up_lpush (l_url l) c))
  end.

(** [Crawler.crawl_url] *)
Definition crawl_url (w : web) (url : string) (c : crawler) : crawler :=
  let url := normalize_url url in
  let url_hash := get_url_hash url in
  if is_url_crawled url_hash c then c
  else if fst (Blocklist.is_blocked (blocklist c) url) then count_blocked c
  else if negb (can_fetch w url) then count_blocked c
  else
    match fetch_page w url with
    | None => count_failed c
    | Some resp =>
        let final_url := r_url resp in
        let final_url_hash := get_url_hash final_url in
        if negb (String.eqb final_url url)
           && fst (Blocklist.is_blocked (blocklist c) final_url)
        then count_blocked c
        else
          match extract_content w (r_text resp) final_url with
          | None => count_failed c
          | Some ex =>
              match save_page w final_url final_url_hash c with
              | (None, c1) => count_failed c1
              | (Some page_id, c1) =>
                  let c2 := queue_links w 0 (e_links ex) c1 in
                  count_crawled (List.length (e_links ex)) c2
              end
          end
    end.

(** What the crawl loop meets in its [n]-th round: the surroundings of
    [crawl_url], and whether the frontier store answers the [RPOP]. *)
Record rounds : Type := {
  web_at : nat -> web;
  dequeue_up : nat -> bool
}.

(** [max_pages and pages_crawled >= max_pages] *)
Definition limit_reached (max_pages : option Z) (pages_crawled : nat) : bool :=
  match max_pages with
  | Some m => negb (m =? 0)%Z && (m <=? Z.of_nat pages_crawled)%Z
  | None => false
  end.

Definition with_redis (r : Redis.store) (c : crawler) : crawler :=
  {| redis := r; pages := pages c; blocklist := blocklist c; stat := stat c |}.

(** The [while True] loop of [Crawler.crawl], entered with the local
    counter at [pages_crawled]; [None] when [fuel] rounds do not reach
    a [break]. *)
Fixpoint crawl_from (fuel : nat) (e : rounds) (max_pages : option Z)
    (pages_crawled : nat) (c : crawler) : option crawler :=
  match fuel with
  | O => None
  | S fuel' =>
      if limit_reached max_pages pages_crawled then Some c
      else
        match Redis.dequeue_url (dequeue_up e pages_crawled) (redis c) with
        | (None, r) => Some (with_redis r c)
        | (Some url, r) =>
            crawl_from fuel' e max_pages (S pages_crawled)
              (crawl_url (web_at e pages_crawled) url (with_redis r c))
        end
  end.

(** [Crawler.crawl] *)
Definition crawl (fuel : nat) (e : rounds) (max_pages : option Z)
    (c : crawler) : option crawler :=
  crawl_from fuel e max_pages 0 c.

End Worker.

(** ** crawler.py: loading the seed file *)
Module Seeds.
Import Py.


End Seeds.

(** ** Specification-side notions *)
Module Spec.
Import Py.

(** The host [is_blocked] works on: the network location of the
    lower-cased URL without a leading [www.]. *)
Definition host (url : string) : res string :=
  match UrlParse.netloc (lower url) with
  | Ok domain =>
      Ok (if startswith "www." domain then drop 4 domain else domain)
  | Raise e => Raise e
  end.

(** [domain] is [d] or a subdomain of [d]. *)
Definition covers (d domain : string) : bool :=
  endswith ("." +:+ d) domain || String.eqb domain d.

(** No blocked domain covers the host; no blocked TLD ends it. *)
Definition no_domain_rule (bl : Blocklist.Tier1Blocklist) (domain : string) : Prop :=
  forall d, d ∈ Blocklist.blocked_domains bl -> covers d domain = false.

Definition no_tld_rule (bl : Blocklist.Tier1Blocklist) (domain : string) : Prop :=
  forall t, t ∈ Blocklist.blocked_tlds bl -> endswith t domain = false.

(** The two later steps of [normalize_url], on a stripped string. *)
Definition defragment (url : string) : string :=
  match find_char "#" url with
  | Some i => take i url
  | None => url
  end.

Definition has_scheme (url : string) : bool :=
  startswith "http://" url || startswith "https://" url.

(** The red-flag phrases found in the lower-cased content, and how
    many distinct ones there are. *)
Definition matched_flags (content : string) : list string :=
  filter (fun keyword => contains keyword (lower content))
         MediaLiteracy.red_flag_keywords.

Definition distinct_red_flags (content : string) : nat :=
  count_distinct (matched_flags content).

(** A page of 113 characters with a single red-flag phrase. *)
Definition flat_earth_page : string :=
  "Some people still argue for a flat earth, and this page explains where that old idea comes from and why it fails.".

(** A page of 128 characters with two red-flag phrases, and a world
    whose primary model answers with a credibility score of 150. *)
Definition miracle_page : string :=
  "This miracle cure is what doctors hate: one spoon a day and every illness is gone for good, as thousands of readers have found.".

Definition overrated_world : MediaLiteracy.world :=
  {| MediaLiteracy.api_key := Some "sk-test";
     MediaLiteracy.post := fun _ _ =>
       MediaLiteracy.Body
         (Json.JObj
            [("choices",
              Json.JArr
                [Json.JObj
                   [("message",
                     Json.JObj [("content", Json.JStr "```json {} ```")])]])]);
     MediaLiteracy.json_loads := fun _ =>
       Ok (Json.JObj [("credibility_score", Json.JInt 150)]) |}.

(** A store in which stormfront.org is flagged by the SPLC and page 7
    lies on that domain; and a world whose three open scorers raise. *)
Definition flagged_db : Composite.database :=
  {| Composite.db_up := true;
     Composite.org_blocklist :=
       {[ "stormfront.org" :=
            {| Composite.splc_flagged := true;
               Composite.aclu_flagged := false;
               Composite.cair_flagged := false;
               Composite.adl_flagged := false;
               Composite.other_org_flagged := false;
               Composite.reason := Some "hate group" |} ]};
     Composite.pages :=
       {[ 7%Z := {| Composite.p_url := "https://stormfront.org/";
                    Composite.p_domain := "stormfront.org";
                    Composite.p_crawled_at := Some 1762000000%Z;
                    Composite.p_scores := None |} ]};
     Composite.page_scoring_logs := [] |}.

Definition failing_world : Composite.world :=
  {| Composite.now := 1762214400%Z;
     Composite.textstat := None;
     Composite.calculate_islamic_alignment := fun _ _ =>
       Raise (ConnectionError "server closed the connection");
     Composite.calculate_authority_score := fun _ _ =>
       Raise (ConnectionError "server closed the connection");
     Composite.calculate_equity_boost := fun _ =>
       Raise (ConnectionError "server closed the connection");
     Composite.media_world := overrated_world |}.

(** A world whose open scorers answer alignment 0, authority 50 and
    no equity boost. *)
Definition plain_world : Composite.world :=
  {| Composite.now := 1762214400%Z;
     Composite.textstat := None;
     Composite.calculate_islamic_alignment := fun _ _ =>
       Ok (Composite.SInt 0, Json.JObj [("reason", Json.JStr "no_keywords_matched")]);
     Composite.calculate_authority_score := fun _ _ =>
       Ok (50%Z, Json.JObj [("total", Json.JInt 50)]);
     Composite.calculate_equity_boost := fun _ =>
       Ok (0%Z, Json.JObj [("reason", Json.JStr "not_in_equity_list")]);
     Composite.media_world := overrated_world |}.

(** The result dictionary of a page blocked for [reason] at time
    [scored_at]. *)
Definition blocked_result (scored_at page_id : Z) (url reason : string)
  : gmap string Json.json :=
  <["components" := Json.JObj [("org_blocked", Json.JBool true);
                               ("reason", Json.JStr reason)]]>
    (<["blocklist_reason" := Json.JStr reason]>
       (<["indexable" := Json.JBool false]>
          (<["final_composite_score" := Json.JInt 0]>
             (list_to_map [("page_id", Json.JInt page_id);
                           ("url", Json.JStr url);
                           ("scored_at", Json.JInt scored_at)])))).

(** A short page without red-flag phrases. *)
Definition garden_page : string :=
  "A short page about gardening. It has two plain sentences and nothing else.".


End Spec.

(** ** Further specification-side notions *)
Module SpecX.
Import Py.

(** Up to [n] successful dequeues in a row, as the crawl loop and the
    self-test of [redis_manager.py] drain the queue: the URLs handed
    out, in order, and the store left behind. *)
Fixpoint dequeue_n (n : nat) (st : Redis.store) : list string * Redis.store :=
  match n with
  | O => ([], st)
  | S k =>
      match Redis.dequeue_url true st with
      | (Some url, st') =>
          let '(urls, st'') := dequeue_n k st' in (url :: urls, st'')
      | (None, st') => ([], st')
      end
  end.

(** Enqueueing a list of URLs, one after the other, on a healthy link. *)
Definition enqueue_all (urls : list string) (st : Redis.store) : Redis.store :=
  Redis.run (map (Redis.Enqueue true true) urls) st.

(** A lower-case hexadecimal digit. *)
Definition is_lower_hex (c : ascii) : bool :=
  let n := code c in
  ((48 <=? n) && (n <=? 57)) || ((97 <=? n) && (n <=? 102)).

(** The last character of a string, and whether it is a digit. *)
Fixpoint last_char (s : string) : option ascii :=
  match s with
  | EmptyString => None
  | String c EmptyString => Some c
  | String _ r => last_char r
  end.

Definition ends_in_digit (s : string) : bool :=
  match last_char s with
  | Some c => UrlParse.isdigit c
  | None => false
  end.

Definition ends_in_nondigit (s : string) : bool :=
  match last_char s with
  | Some c => negb (UrlParse.isdigit c)
  | None => false
  end.

(** One call of [calculate_authority_score], and the answers of a
    sequence of calls on one scorer. *)
Record authority_call : Type := {
  a_counts : Dimensions.link_counts;
  a_now_check : Z;
  a_now_store : Z;
  a_url : string;
  a_domain : string
}.

Fixpoint authority_answers (calls : list authority_call)
    (cache : gmap string Dimensions.cached) : list (res (Z * Json.json)) :=
  match calls with
  | [] => []
  | a :: rest =>
      let '(answer, cache') :=
        Dimensions.calculate_authority_score (a_counts a) (a_now_check a)
          (a_now_store a) (a_url a) (a_domain a) cache in
      answer :: authority_answers rest cache'
  end.

(** The answers of a sequence of calls of [calculate_equity_boost] on
    one scorer; each call comes with the state of the table it meets. *)
Fixpoint equity_answers
    (calls : list ((string -> res (option Dimensions.equity_row)) * string))
    (cache : gmap string (Z * Json.json)) : list (res (Z * Json.json)) :=
  match calls with
  | [] => []
  | (query, domain) :: rest =>
      let '(answer, cache') :=
        Dimensions.calculate_equity_boost query domain cache in
      answer :: equity_answers rest cache'
  end.

(** The URLs [crawl_url] has disposed of, by the three counters. *)
Definition handled (s : Crawler.stats) : nat :=
  Crawler.pages_crawled s + Crawler.pages_blocked s + Crawler.pages_failed s.

(** Link counts of a page with three backlinks, one from a [.edu]
    site, and tables that cannot be read. *)
Definition some_links : Dimensions.link_counts :=
  {| Dimensions.backlink_count := fun _ => Ok 3;
     Dimensions.edu_refs := fun _ => Ok 1;
     Dimensions.gov_refs := fun _ => Ok 0 |}.

Definition no_links : Dimensions.link_counts :=
  {| Dimensions.backlink_count := fun _ => Ok 0;
     Dimensions.edu_refs := fun _ => Ok 0;
     Dimensions.gov_refs := fun _ => Ok 0 |}.

(** A web on which every page is fetched as it is asked for and holds
    the anchors [hrefs]; relative references are taken as they stand. *)
Definition flat_web (hrefs : list string) : Worker.web :=
  {| Worker.can_fetch := fun _ => true;
     Worker.fetch_page := fun url =>
       Some {| Worker.r_url := url; Worker.r_text := "<html></html>" |};
     Worker.parse := fun _ =>
       Ok {| Worker.title_string := Some "Home";
             Worker.get_text := "Welcome to the garden";
             Worker.anchors := map (fun h => (h, "more")) hrefs |};
     Worker.urljoin := fun _ href => Ok href;
     Worker.insert_page := fun _ => Some 1%Z;
     Worker.link_up := fun _ => (true, true) |}.

(** A web that answers every request for a page with the page at
    [target]. *)
Definition redirecting_web (target : string) : Worker.web :=
  {| Worker.can_fetch := fun _ => true;
     Worker.fetch_page := fun _ =>
       Some {| Worker.r_url := target; Worker.r_text := "<html></html>" |};
     Worker.parse := fun _ =>
       Ok {| Worker.title_string := None;
             Worker.get_text := "moved";
             Worker.anchors := [] |};
     Worker.urljoin := fun _ href => Ok href;
     Worker.insert_page := fun _ => Some 1%Z;
     Worker.link_up := fun _ => (true, true) |}.

End SpecX.

(** * Tier-1 blocklist *)
Section BlocklistFacts.
Import Py Blocklist Spec.

Variable bl : Tier1Blocklist.

Lemma find_elements_some (s : gset string) (p : string -> bool) (x : string) :
  find p (elements s) = Some x -> x ∈ s /\ p x = true.
Proof.
  intros H. apply find_some in H as [Hin Hp]. split; [|exact Hp].
  apply elem_of_elements, list_elem_of_In, Hin.
Qed.

Lemma find_elements_none (s : gset string) (p : string -> bool) :
  find p (elements s) = None -> forall x, x ∈ s -> p x = false.
Proof.
  intros H x Hx. eapply find_none; [exact H|].
  apply list_elem_of_In, elem_of_elements, Hx.
Qed.


Lemma is_blocked_unfold (url domain : string) :
  host url = Ok domain ->
  is_blocked bl url =
    if bool_decide (domain ∈ blocked_domains bl)
    then (true, Some ("Blocked domain: " +:+ domain))
    else
      match find (fun d => covers d domain) (elements (blocked_domains bl)) with
      | Some blocked => (true, Some ("Blocked domain: " +:+ blocked))
      | None =>
          match find (fun tld => endswith tld domain) (elements (blocked_tlds bl)) with
          | Some tld => (true, Some ("Blocked TLD: " +:+ tld))
          | None =>
              match find (fun p => search p (lower url))
                         (compiled_patterns bl) with
              | Some p => (true, Some ("Blocked pattern: " +:+ pattern_src p))
              | None => (false, None)
              end
          end
      end.
Proof.
  unfold host, is_blocked. destruct (UrlParse.netloc (lower url)); [|discriminate].
  intros [= <-]. reflexivity.
Qed.

End BlocklistFacts.



Section BlocklistOrder.
Import Py Blocklist Spec.

Variable bl : Tier1Blocklist.
Variables url domain : string.
Hypothesis parsed : host url = Ok domain.

(** Rule 2: an exact member of the domain set is reported under its
    own name. *)
Lemma exact_rule :
  domain ∈ blocked_domains bl ->
  is_blocked bl url = (true, Some ("Blocked domain: " +:+ domain)).
Proof.
  intros H. rewrite (is_blocked_unfold bl url domain parsed).
  rewrite bool_decide_eq_true_2 by exact H. reflexivity.
Qed.


Lemma no_domain_rule_not_member : no_domain_rule bl domain -> domain ∉ blocked_domains bl.
Proof.
  intros H Hin. specialize (H domain Hin). unfold covers in H.
  rewrite String.eqb_refl, orb_true_r in H. discriminate.
Qed.

Lemma find_covers_none :
  no_domain_rule bl domain ->
  find (fun d => covers d domain) (elements (blocked_domains bl)) = None.
Proof.
  intros H. destruct (find _ _) eqn:E; [|reflexivity].
  apply find_elements_some in E as [Hin Hc]. rewrite (H _ Hin) in Hc.
  discriminate.
Qed.


Lemma find_tld_none :
  no_tld_rule bl domain ->
  find (fun tld => endswith tld domain) (elements (blocked_tlds bl)) = None.
Proof.
  intros H. destruct (find _ _) eqn:E; [|reflexivity].
  apply find_elements_some in E as [Hin Hc]. rewrite (H _ Hin) in Hc.
  discriminate.
Qed.

(** Rule 5: with no domain and no TLD rule applying, the first pattern
    found in the lower-cased URL is reported; with none, the URL is
    allowed. *)
Lemma pattern_rule :
  no_domain_rule bl domain -> no_tld_rule bl domain ->
  is_blocked bl url =
    match find (fun p => search p (lower url)) (compiled_patterns bl) with
    | Some p => (true, Some ("Blocked pattern: " +:+ pattern_src p))
    | None => (false, None)
    end.
Proof.
  intros Hd Ht. rewrite (is_blocked_unfold bl url domain parsed).
  rewrite bool_decide_eq_false_2 by (apply no_domain_rule_not_member, Hd).
  rewrite (find_covers_none Hd), (find_tld_none Ht). reflexivity.
Qed.

End BlocklistOrder.



(** * URL canonicalisation *)
Section StringFacts.
Import Py.







Lemma has_char_false (c : ascii) (s : string) :
  has_char c s = false -> find_char c s = None.
Proof. unfold has_char. destruct (find_char c s); [discriminate|reflexivity]. Qed.


Lemma find_char_app_none (c : ascii) (a b : string) :
  find_char c a = None -> find_char c b = None -> find_char c (a +:+ b) = None.
Proof.
  induction a as [|x a IH]; simpl; [auto|].
  destruct (Ascii.eqb x c); [discriminate|].
  destruct (find_char c a); [discriminate|].
  intros _ H. rewrite IH; auto.
Qed.


Lemma startswith_app (p b s : string) :
  startswith p b = true -> startswith p (b +:+ s) = true.
Proof.
  revert b. induction p as [|a p IH]; intros [|c b]; simpl; try easy.
  intros H. apply andb_true_iff in H as [H1 H2]. rewrite H1, IH; auto.
Qed.

End StringFacts.

Section NormalizeFacts.
Import Py Crawler Spec.

Lemma normalize_url_steps (url : string) :
  normalize_url url =
    let core := defragment (strip url) in
    if has_scheme core then core else "https://" +:+ core.
Proof. reflexivity. Qed.







Lemma https_no_hash (b : string) :
  has_char "#" b = false -> has_char "#" ("https://" +:+ b) = false.
Proof.
  intros H. unfold has_char.
  rewrite (find_char_app_none "#" "https://" b); auto using has_char_false.
Qed.



End NormalizeFacts.




(** * The frontier store *)
Section RedisFacts.
Import Py Redis.

Lemma enqueue_url_member (u1 u2 : bool) (url : string) (st : store) :
  url ∈ qset st -> enqueue_url u1 u2 url st = (false, st).
Proof.
  intros H. unfold enqueue_url, sadd. destruct u1; [|reflexivity].
  rewrite bool_decide_eq_true_2 by exact H. reflexivity.
Qed.

Lemma enqueue_url_cases (u1 u2 : bool) (url : string) (st : store) :
  enqueue_url u1 u2 url st =
    if u1 then
      if bool_decide (url ∈ qset st) then (false, st)
      else if u2 then
             (true, {| queue := url :: queue st; qset := {[ url ]} ∪ qset st |})
           else (false, {| queue := queue st; qset := {[ url ]} ∪ qset st |})
    else (false, st).
Proof.
  unfold enqueue_url, sadd, lpush. destruct u1; [|reflexivity].
  destruct (bool_decide (url ∈ qset st)); [reflexivity|].
  destruct u2; reflexivity.
Qed.

Lemma enqueue_url_qset (u1 u2 : bool) (url : string) (st : store) :
  qset st ⊆ qset (snd (enqueue_url u1 u2 url st)).
Proof.
  rewrite enqueue_url_cases.
  destruct u1, (bool_decide (url ∈ qset st)), u2; simpl; set_solver.
Qed.

Lemma enqueue_url_admitted (u1 u2 : bool) (url : string) (st : store) :
  fst (enqueue_url u1 u2 url st) = true ->
  url ∈ qset (snd (enqueue_url u1 u2 url st)).
Proof.
  rewrite enqueue_url_cases.
  destruct u1, (bool_decide (url ∈ qset st)), u2; simpl; try discriminate.
  intros _. set_solver.
Qed.

Lemma dequeue_url_qset (up : bool) (st : store) :
  qset (snd (dequeue_url up st)) = qset st.
Proof.
  unfold dequeue_url, rpop. destruct up; [|reflexivity].
  destruct (pop_right (queue st)) as [[q x]|]; reflexivity.
Qed.

Lemma step_qset (st : store) (o : op) : qset st ⊆ qset (step st o).
Proof.
  destruct o; simpl.
  - apply enqueue_url_qset.
  - rewrite dequeue_url_qset. reflexivity.
Qed.

Lemma run_qset (ops : list op) (st : store) : qset st ⊆ qset (run ops st).
Proof.
  revert st. induction ops as [|o ops IH]; intros st; simpl; [reflexivity|].
  etransitivity; [apply step_qset|apply IH].
Qed.

Lemma pop_right_spec (l q : list string) (x : string) :
  pop_right l = Some (q, x) -> l = (q ++ [x])%list.
Proof.
  revert q. induction l as [|a l IH]; intros q; simpl; [discriminate|].
  destruct (pop_right l) as [[q' y]|] eqn:E.
  - intros [= <- <-]. rewrite (IH q' eq_refl). reflexivity.
  - intros [= <- <-]. destruct l as [|b l]; [reflexivity|].
    simpl in E. destruct (pop_right l) as [[? ?]|]; discriminate.
Qed.

Lemma dequeue_url_some (up : bool) (st st' : store) (url : string) :
  dequeue_url up st = (Some url, st') ->
  queue st = (queue st' ++ [url])%list /\ qset st' = qset st.
Proof.
  unfold dequeue_url, rpop. destruct up; [|discriminate].
  destruct (pop_right (queue st)) as [[q x]|] eqn:E; [|discriminate].
  intros [= <- <-]. simpl. split; [apply pop_right_spec, E|reflexivity].
Qed.

Lemma wf_step (st : store) (o : op) : wf st -> wf (step st o).
Proof.
  intros [Hnd Hin]. destruct o as [u1 u2 url|up]; simpl.
  - rewrite enqueue_url_cases.
    destruct u1; [|split; assumption].
    destruct (bool_decide (url ∈ qset st)) eqn:E; [split; assumption|].
    apply bool_decide_eq_false in E.
    destruct u2; split; simpl.
    + constructor; [|exact Hnd]. intros Hq. apply E, Hin, list_elem_of_In, Hq.
    + intros u [<-|Hu]; [set_solver|]. specialize (Hin u Hu). set_solver.
    + exact Hnd.
    + intros u Hu. specialize (Hin u Hu). set_solver.
  - unfold dequeue_url, rpop. destruct up; [|split; assumption].
    destruct (pop_right (queue st)) as [[q x]|] eqn:E; [|split; assumption].
    apply pop_right_spec in E. simpl. rewrite E in Hnd, Hin. split.
    + apply NoDup_app in Hnd. tauto.
    + intros u Hu. apply Hin, in_or_app. auto.
Qed.

Lemma wf_run (ops : list op) (st : store) : wf st -> wf (run ops st).
Proof.
  revert st. induction ops as [|o ops IH]; intros st H; simpl; [exact H|].
  apply IH, wf_step, H.
Qed.

Lemma wf_empty : wf empty.
Proof. split; [constructor|intros u []]. Qed.

End RedisFacts.

(** C9.  The dedup set only grows under enqueue and dequeue; once a URL
    has been admitted, every later enqueue of it returns [False] and
    leaves the store as it is, whatever was enqueued or dequeued in
    between; and on a store whose queued URLs are all in the set, a URL
    handed out by dequeue is refused by every later enqueue. *)
Theorem dedup_set_is_permanent :
  (forall (st : Redis.store) (ops : list Redis.op),
      Redis.qset st ⊆ Redis.qset (Redis.run ops st))
  /\ (forall (st : Redis.store) (url : string) (u1 u2 : bool),
         fst (Redis.enqueue_url u1 u2 url st) = true ->
         forall (ops : list Redis.op) (v1 v2 : bool),
           Redis.enqueue_url v1 v2 url
             (Redis.run ops (snd (Redis.enqueue_url u1 u2 url st)))
           = (false, Redis.run ops (snd (Redis.enqueue_url u1 u2 url st))))
  /\ (forall (st st1 : Redis.store) (ops1 : list Redis.op) (up : bool)
             (url : string),
         Redis.wf st ->
         Redis.dequeue_url up (Redis.run ops1 st) = (Some url, st1) ->
         forall (ops2 : list Redis.op) (v1 v2 : bool),
           Redis.enqueue_url v1 v2 url (Redis.run ops2 st1)
           = (false, Redis.run ops2 st1)).
Proof.
  split; [|split].
  - intros st ops. apply run_qset.
  - intros st url u1 u2 H ops v1 v2. apply enqueue_url_member.
    apply (run_qset ops), enqueue_url_admitted, H.
  - intros st st1 ops1 up url Hwf Hd ops2 v1 v2. apply enqueue_url_member.
    apply (run_qset ops2).
    apply dequeue_url_some in Hd as [Hq Hs]. rewrite Hs.
    apply (wf_run ops1) in Hwf. destruct Hwf as [_ Hin].
    apply Hin. rewrite Hq. apply in_or_app. right. left. reflexivity.
Qed.

Lemma dedup_set_is_permanent_witness :
  Redis.enqueue_url true true "https://example.org/a"
    (Redis.run [Redis.Dequeue true; Redis.Enqueue true true "https://example.org/b";
                Redis.Dequeue true]
       (snd (Redis.enqueue_url true true "https://example.org/a" Redis.empty)))
  = (false,
     Redis.run [Redis.Dequeue true; Redis.Enqueue true true "https://example.org/b";
                Redis.Dequeue true]
       (snd (Redis.enqueue_url true true "https://example.org/a" Redis.empty))).
Proof.
  apply (proj1 (proj2 dedup_set_is_permanent) Redis.empty
           "https://example.org/a" true true).
  reflexivity.
Defined.

(** * Admission to the frontier *)
Section QueueFacts.
Import Py Crawler.

Variable c : crawler.
Variable url : string.

(** A blocked URL, or one whose hash is a stored page, is refused and
    nothing changes. *)
Lemma queue_url_refused (u1 u2 : bool) :
  fst (Blocklist.is_blocked (blocklist c) url) = true
  \/ is_url_crawled (get_url_hash url) c = true ->
  queue_url u1 u2 url c = (false, c).
Proof.
  unfold queue_url.
  destruct (Blocklist.is_blocked (blocklist c) url) as [b r]; simpl.
  intros [->| H]; [reflexivity|]. destruct b; [reflexivity|].
  rewrite H. reflexivity.
Qed.

(** A URL that passes both checks and is new to the dedup set is pushed
    at the left end of the queue. *)
Lemma queue_url_pushed :
  fst (Blocklist.is_blocked (blocklist c) url) = false ->
  is_url_crawled (get_url_hash url) c = false ->
  url ∉ Redis.qset (redis c) ->
  fst (queue_url true true url c) = true
  /\ Redis.queue (redis (snd (queue_url true true url c)))
     = url :: Redis.queue (redis c).
Proof.
  intros Hb Hc Hq. unfold queue_url.
  destruct (Blocklist.is_blocked (blocklist c) url) as [b r]; simpl in Hb.
  subst b. rewrite Hc, enqueue_url_cases.
  rewrite bool_decide_eq_false_2 by exact Hq. split; reflexivity.
Qed.

(** A URL that passes both checks: the answer is [True] whatever the
    store did with it. *)
Lemma queue_url_passed (u1 u2 : bool) :
  fst (Blocklist.is_blocked (blocklist c) url) = false ->
  is_url_crawled (get_url_hash url) c = false ->
  queue_url u1 u2 url c
  = (true, {| redis := snd (Redis.enqueue_url u1 u2 url (redis c));
              pages := pages c; blocklist := blocklist c;
              stat := count_queued (stat c) |}).
Proof.
  intros Hb Hc. unfold queue_url.
  destruct (Blocklist.is_blocked (blocklist c) url) as [b r]; simpl in Hb.
  subst b. rewrite Hc.
  destruct (Redis.enqueue_url u1 u2 url (redis c)); reflexivity.
Qed.

(** The queue never holds a URL twice. *)
Lemma queue_url_wf (u1 u2 : bool) :
  Redis.wf (redis c) -> Redis.wf (redis (snd (queue_url u1 u2 url c))).
Proof.
  intros H. unfold queue_url.
  destruct (Blocklist.is_blocked (blocklist c) url) as [[] r]; [exact H|].
  destruct (is_url_crawled (get_url_hash url) c); [exact H|].
  destruct (Redis.enqueue_url u1 u2 url (redis c)) as [a r'] eqn:E. simpl.
  change r' with (snd (a, r')). rewrite <- E.
  apply (wf_step (redis c) (Redis.Enqueue u1 u2 url)), H.
Qed.

End QueueFacts.

(** C5, at the failing input.  A URL that is neither blocked nor stored
    as a page but is already in the dedup set: [queue_url] answers
    [True] and counts it as queued, while the queue stays as it was. *)
Theorem queue_url_reports_duplicate_as_admitted :
  forall (c : Crawler.crawler) (url : string) (u1 u2 : bool),
    fst (Blocklist.is_blocked (Crawler.blocklist c) url) = false ->
    Crawler.is_url_crawled (Crawler.get_url_hash url) c = false ->
    url ∈ Redis.qset (Crawler.redis c) ->
    fst (Crawler.queue_url u1 u2 url c) = true
    /\ Crawler.redis (snd (Crawler.queue_url u1 u2 url c)) = Crawler.redis c
    /\ Crawler.urls_queued (Crawler.stat (snd (Crawler.queue_url u1 u2 url c)))
       = S (Crawler.urls_queued (Crawler.stat c)).
Proof.
  intros c url u1 u2 Hb Hc Hq.
  rewrite (queue_url_passed c url u1 u2 Hb Hc).
  rewrite (enqueue_url_member u1 u2 url (Crawler.redis c) Hq).
  repeat split; reflexivity.
Qed.

Lemma queue_url_reports_duplicate_as_admitted_witness :
  fst (Crawler.queue_url true true "https://example.org/a"
         (snd (Crawler.queue_url true true "https://example.org/a"
                 Crawler.fresh))) = true
  /\ Redis.queue
       (Crawler.redis
          (snd (Crawler.queue_url true true "https://example.org/a"
                  (snd (Crawler.queue_url true true "https://example.org/a"
                          Crawler.fresh)))))
     = ["https://example.org/a"]
  /\ Crawler.urls_queued
       (Crawler.stat
          (snd (Crawler.queue_url true true "https://example.org/a"
                  (snd (Crawler.queue_url true true "https://example.org/a"
                          Crawler.fresh))))) = 2.
Proof.
  destruct (queue_url_reports_duplicate_as_admitted
              (snd (Crawler.queue_url true true "https://example.org/a"
                      Crawler.fresh))
              "https://example.org/a" true true) as [H1 [H2 H3]].
  - vm_compute. reflexivity.
  - vm_compute. reflexivity.
  - vm_compute. reflexivity.
  - split; [exact H1|]. split.
    + rewrite H2. vm_compute. reflexivity.
    + rewrite H3. vm_compute. reflexivity.
Defined.

(** * Escalation gate *)
Section GateFacts.
Import Py MediaLiteracy Spec.

Lemma count_distinct_le (l : list string) : count_distinct l <= List.length l.
Proof.
  unfold count_distinct. induction l as [|x l IH]; simpl; [lia|].
  destruct (in_dec string_dec x l); simpl; lia.
Qed.

Lemma needs_analysis_long (content domain : string) :
  100 <= String.length content ->
  needs_analysis (Some content) domain
  = (2 <=? List.length (matched_flags content), matched_flags content).
Proof.
  intros H. unfold needs_analysis.
  replace (String.length content =? 0) with false
    by (symmetry; apply Nat.eqb_neq; lia).
  replace (String.length content <? 100) with false
    by (symmetry; apply Nat.ltb_ge; lia).
  reflexivity.
Qed.

(** Content under 100 characters is never escalated. *)
Lemma needs_analysis_short (content domain : string) :
  String.length content < 100 ->
  needs_analysis (Some content) domain = (false, []).
Proof.
  intros H. unfold needs_analysis.
  replace (String.length content <? 100) with true
    by (symmetry; apply Nat.ltb_lt; lia).
  rewrite orb_true_r. reflexivity.
Qed.

(** No phrase, no escalation. *)
Lemma needs_analysis_none (content domain : string) :
  distinct_red_flags content = 0 ->
  fst (needs_analysis (Some content) domain) = false.
Proof.
  intros H. destruct (Nat.lt_ge_cases (String.length content) 100) as [L|L].
  - rewrite needs_analysis_short by exact L. reflexivity.
  - rewrite needs_analysis_long by exact L. simpl.
    unfold distinct_red_flags, count_distinct in H.
    destruct (matched_flags content) as [|x l]; [reflexivity|].
    exfalso. assert (In x (nodup string_dec (x :: l)))
      by (apply nodup_In; left; reflexivity).
    destruct (nodup string_dec (x :: l)); [contradiction|discriminate].
Qed.

(** Two distinct phrases in content of 100 characters or more:
    escalation. *)
Lemma needs_analysis_two (content domain : string) :
  100 <= String.length content -> 2 <= distinct_red_flags content ->
  fst (needs_analysis (Some content) domain) = true.
Proof.
  intros L H. rewrite needs_analysis_long by exact L. cbn [fst].
  apply Nat.leb_le. pose proof (count_distinct_le (matched_flags content)).
  unfold distinct_red_flags in H. lia.
Qed.

End GateFacts.

(** C2, at the failing input.  The page has 113 characters and exactly
    one distinct red-flag phrase, [flat earth]; the phrase stands twice
    in the keyword list, is matched twice, and the gate answers [True]. *)
Theorem needs_analysis_counts_repeated_entries :
  String.length Spec.flat_earth_page = 113
  /\ Spec.distinct_red_flags Spec.flat_earth_page = 1
  /\ MediaLiteracy.needs_analysis (Some Spec.flat_earth_page) "example.com"
     = (true, ["flat earth"; "flat earth"]).
Proof. repeat split; vm_compute; reflexivity. Qed.

(** * Media-literacy scorer *)
Section NumFacts.
Import Py Json.








End NumFacts.

Section MediaFacts.
Import Py Json MediaLiteracy.

Variable w : world.

Lemma bind_ok {A B : Type} (x : res A) (k : A -> res B) (b : B) :
  bind x k = Ok b -> exists a, x = Ok a /\ k a = Ok b.
Proof. destruct x as [a|e]; simpl; [eauto|discriminate]. Qed.





(** The outcome of [analyze_with_openrouter], by what the two calls and
    the [try] produced. *)
Lemma analyze_cases (content : option string) (domain : string)
    (title : option string) (s : stats) :
  let p := build_analysis_prompt content domain title in
  let r := analyze_with_openrouter w content domain title s in
  match fst (first_response w p) with
  | None =>
      fst (fst r) = 50%Z
      /\ snd (fst r) !! "status" = Some (JStr "error")
      /\ snd (fst r) !! "error" = Some (JStr "API unavailable")
  | Some response =>
      match extract_analysis w response with
      | Ok (z, d) => fst r = (z, d)
      | Raise e =>
          fst (fst r) = 50%Z
          /\ snd (fst r) !! "status" = Some (JStr "error")
          /\ is_Some (snd (fst r) !! "error")
      end
  end.
Proof.
  cbv zeta. unfold analyze_with_openrouter.
  destruct (first_response w _) as [[response|] fb]; cbn [fst].
  - destruct (extract_analysis w response) as [[z d]|e]; [reflexivity|].
    destruct e; cbn [fst snd]; repeat split; try reflexivity; eexists; reflexivity.
  - repeat split; reflexivity.
Qed.


(** [calculate_media_literacy_score] by the verdict of the gate. *)
Lemma calculate_cases (content : option string) (domain : string)
    (title : option string) (s : stats) :
  let r := calculate_media_literacy_score w content domain title s in
  let a := analyze_with_openrouter w content domain title (count_call s) in
  if fst (needs_analysis content domain) then
    fst (fst r) = fst (fst a)
    /\ forall k, k <> "triggered_by" -> snd (fst r) !! k = snd (fst a) !! k
  else
    fst (fst r) = 50%Z
    /\ snd (fst r) !! "status" = Some (JStr "neutral")
    /\ snd (fst r) !! "skipped_analysis" = Some (JBool true).
Proof.
  cbv zeta. unfold calculate_media_literacy_score.
  destruct (needs_analysis content domain) as [[] matched]; cbn [fst negb].
  - destruct (analyze_with_openrouter w content domain title (count_call s))
      as [[z d] s']. cbn [fst snd]. split; [reflexivity|].
    intros k Hk. apply lookup_insert_ne. congruence.
  - repeat split; reflexivity.
Qed.

End MediaFacts.



(** * Composite scorer: the organisational blocklist *)
Section OrgBlockFacts.
Import Py Json Composite.

Variable w : world.
Variable db : database.
Variable sc : scorer.
Variables (domain d : string) (row : org_row).

Hypothesis clean : domain_clean domain = Ok d.
Hypothesis not_cached : blocklist_cache sc !! d = None.
Hypothesis reachable : db_up db = true.
Hypothesis listed : org_blocklist db !! d = Some row.
Hypothesis flagged : any_flag row = true.

(** A flagged domain that is not yet cached is looked up, reported
    blocked, and cached. *)
Lemma check_org_blocklist_flagged :
  check_org_blocklist db domain sc
  = (Ok (true, Some (block_reason row)),
     {| blocklist_cache :=
          <[d := (true, Some (block_reason row))]> (blocklist_cache sc);
        media_stats := media_stats sc |}).
Proof.
  unfold check_org_blocklist, bindM, lift. rewrite clean, not_cached, reachable.
  rewrite listed, flagged. reflexivity.
Qed.

Lemma calculate_composite_score_blocked (page_id : Z) (url : string)
    (title content : option string) (crawled_at : option Z) :
  calculate_composite_score w db page_id url title content domain crawled_at sc
  = (Ok (Spec.blocked_result (now w) page_id url (block_reason row)),
     {| blocklist_cache :=
          <[d := (true, Some (block_reason row))]> (blocklist_cache sc);
        media_stats := media_stats sc |}).
Proof.
  unfold calculate_composite_score, bindM.
  rewrite check_org_blocklist_flagged. reflexivity.
Qed.

Lemma blocked_result_lookups (page_id : Z) (url : string) :
  Spec.blocked_result (now w) page_id url (block_reason row) !! "final_composite_score" = Some (JInt 0)
  /\ Spec.blocked_result (now w) page_id url (block_reason row) !! "indexable" = Some (JBool false)
  /\ Spec.blocked_result (now w) page_id url (block_reason row) !! "blocklist_reason"
     = Some (JStr (block_reason row))
  /\ Spec.blocked_result (now w) page_id url (block_reason row) !! "islamic_alignment_score" = None.
Proof. repeat split; reflexivity. Qed.

Lemma save_scores_to_db_blocked (page_id : Z) (url : string) :
  save_scores_to_db (Spec.blocked_result (now w) page_id url (block_reason row)) db
  = (Raise (KeyError "islamic_alignment_score"), db).
Proof. reflexivity. Qed.

End OrgBlockFacts.

Lemma startswith_refl (s : string) : Py.startswith s s = true.
Proof. induction s as [|c s IH]; simpl; [|rewrite Ascii.eqb_refl]; auto. Qed.

Lemma block_reason_names (row : Composite.org_row) :
  Py.startswith ("Flagged by: " +:+ Py.join ", " (Composite.flag_names row))
    (Composite.block_reason row) = true.
Proof.
  unfold Composite.block_reason. destruct (Composite.reason row) as [txt|].
  - destruct (String.eqb txt ""); [apply startswith_refl|].
    apply startswith_app, startswith_refl.
  - apply startswith_refl.
Qed.

(** C1, on the code.  For a page whose (cleaned) domain carries an
    org-blocklist flag, [calculate_composite_score] builds a result with
    composite 0, [indexable = False] and a reason that begins with the
    names of the flagging organisations; no dimension scorer has a say
    in it and the media-literacy counters do not move.  The result has
    no [islamic_alignment_score] entry, so [save_scores_to_db] raises
    [KeyError] before its first statement, rolls back, and [score_page]
    raises instead of returning 0: nothing is persisted. *)
Theorem score_page_org_blocked_raises :
  forall (w : Composite.world) (db : Composite.database) (sc : Composite.scorer)
         (page_id : Z) (url : string) (title content : option string)
         (domain : string) (crawled_at : option Z)
         (d : string) (row : Composite.org_row),
    Composite.domain_clean domain = Py.Ok d ->
    Composite.blocklist_cache sc !! d = None ->
    Composite.db_up db = true ->
    Composite.org_blocklist db !! d = Some row ->
    Composite.any_flag row = true ->
    let r := Composite.calculate_composite_score w db page_id url title
               content domain crawled_at sc in
    (exists result,
        fst r = Py.Ok result
        /\ result !! "final_composite_score" = Some (Json.JInt 0)
        /\ result !! "indexable" = Some (Json.JBool false)
        /\ result !! "blocklist_reason"
           = Some (Json.JStr (Composite.block_reason row))
        /\ result !! "islamic_alignment_score" = None)
    /\ Py.startswith
         ("Flagged by: " +:+ Py.join ", " (Composite.flag_names row))
         (Composite.block_reason row) = true
    /\ Composite.media_stats (snd r) = Composite.media_stats sc
    /\ (forall w' : Composite.world,
           Composite.now w' = Composite.now w ->
           fst (Composite.calculate_composite_score w' db page_id url title
                  content domain crawled_at sc) = fst r)
    /\ Composite.score_page w page_id url title content domain crawled_at sc db
       = (Py.Raise (Py.KeyError "islamic_alignment_score"), snd r, db).
Proof.
  intros w db sc page_id url title content domain crawled_at d row
         Hc Hn Hu Hl Hf r.
  pose proof (calculate_composite_score_blocked w db sc domain d row
                Hc Hn Hu Hl Hf page_id url title content crawled_at) as E.
  fold r in E. split; [|split; [|split; [|split]]].
  - eexists. rewrite E. split; [reflexivity|].
    apply (blocked_result_lookups w row).
  - apply block_reason_names.
  - rewrite E. reflexivity.
  - intros w' Hw. rewrite E.
    rewrite (calculate_composite_score_blocked w' db sc domain d row
               Hc Hn Hu Hl Hf). rewrite Hw. reflexivity.
  - unfold Composite.score_page. fold r. rewrite E.
    rewrite (save_scores_to_db_blocked w db row). reflexivity.
Qed.

Lemma score_page_org_blocked_raises_witness :
  Composite.score_page Spec.failing_world 7 "https://stormfront.org/" None
    (Some Spec.miracle_page) "stormfront.org" (Some 1762000000%Z)
    Composite.new_scorer Spec.flagged_db
  = (Py.Raise (Py.KeyError "islamic_alignment_score"),
     snd (Composite.calculate_composite_score Spec.failing_world
            Spec.flagged_db 7 "https://stormfront.org/" None
            (Some Spec.miracle_page) "stormfront.org" (Some 1762000000%Z)
            Composite.new_scorer),
     Spec.flagged_db).
Proof.
  refine (proj2 (proj2 (proj2 (proj2
    (score_page_org_blocked_raises Spec.failing_world Spec.flagged_db
       Composite.new_scorer 7 "https://stormfront.org/" None
       (Some Spec.miracle_page) "stormfront.org" (Some 1762000000%Z)
       "stormfront.org"
       {| Composite.splc_flagged := true;
          Composite.aclu_flagged := false;
          Composite.cair_flagged := false;
          Composite.adl_flagged := false;
          Composite.other_org_flagged := false;
          Composite.reason := Some "hate group" |} _ _ _ _ _))))).
  - vm_compute. reflexivity.
  - vm_compute. reflexivity.
  - reflexivity.
  - vm_compute. reflexivity.
  - reflexivity.
Defined.

(** * Composite scorer: the weighted combination *)
Section CombineFacts.
Import Py Json Composite.

Variable w : world.
Variable db : database.
Variables (sc sc1 : scorer).
Variables (page_id : Z) (url : string) (title content : option string).
Variables (domain : string) (crawled_at : option Z).
Variable reason0 : option string.
Variables (islamic_score : score) (islamic_details : json).
Variables (q : Z) (quality_details : gmap string json).
Variables (authority_score : Z) (authority_details : json).
Variables (equity_boost : Z) (equity_details : json).

Hypothesis not_blocked :
  check_org_blocklist db domain sc = (Ok (false, reason0), sc1).
Hypothesis islamic :
  calculate_islamic_alignment w content domain
  = Ok (islamic_score, islamic_details).
Hypothesis quality :
  calculate_quality_score w db content domain title = Ok (q, quality_details).
Hypothesis authority :
  calculate_authority_score w url domain
  = Ok (authority_score, authority_details).
Hypothesis equity :
  calculate_equity_boost w domain = Ok (equity_boost, equity_details).

Lemma calculate_composite_score_combined (final islamic_int : Z) :
  py_round
    (weighted_sum (normalize_islamic islamic_score)
       (match crawled_at with
        | Some t => Z.min 100 (q + freshness w t)
        | None => q
        end)
       authority_score
       (fst (fst (MediaLiteracy.calculate_media_literacy_score (media_world w)
                    content domain title (media_stats sc1))))
       equity_boost) = Ok final ->
  int_of_score islamic_score = Ok islamic_int ->
  exists result sc2,
    calculate_composite_score w db page_id url title content domain
      crawled_at sc = (Ok result, sc2)
    /\ result !! "final_composite_score" = Some (JInt final)
    /\ result !! "indexable" = Some (JBool (25 <=? final)%Z)
    /\ result !! "blocklist_reason" = Some JNull.
Proof.
  intros Hr Hi. unfold calculate_composite_score, bindM.
  rewrite not_blocked. unfold lift. cbv beta iota zeta.
  rewrite islamic. cbv beta iota zeta. rewrite quality. cbv beta iota zeta.
  destruct (MediaLiteracy.calculate_media_literacy_score (media_world w)
              content domain title (media_stats sc1))
    as [[media_score media_details] ms] eqn:M.
  cbn [fst] in Hr.
  destruct crawled_at as [t|]; cbv beta iota zeta;
    rewrite authority; cbv beta iota zeta; cbn [media_stats];
    rewrite M; cbv beta iota zeta;
    rewrite equity; cbv beta iota zeta; rewrite Hr; cbv beta iota zeta;
    rewrite Hi; cbv beta iota zeta; unfold ret;
    eexists; eexists; (split; [reflexivity|]); repeat split; reflexivity.
Qed.

End CombineFacts.

(** C3.  For a page that is not blocked and whose five dimensions are
    scored, the composite is [round] of
    [islamicNorm*0.30 + quality*0.25 + authority*0.20 + media*0.15
     + equityBoost*0.10] in binary64 arithmetic, with
    [islamicNorm = (islamicRaw + 100) / 2] and [quality] the quality
    score after freshness, and [indexable] is [composite >= 25].  With
    50, 50, 50, 50 and 0 the composite is 45 and the page is indexable;
    with 10, 10, 10, 10 and 0 it is 9 and the page is not. *)
#[warnings="-inexact-float"] Theorem composite_score_formula :
  (forall (w : Composite.world) (db : Composite.database)
          (sc sc1 : Composite.scorer) (page_id : Z) (url : string)
          (title content : option string) (domain : string)
          (crawled_at : option Z) (reason0 : option string)
          (islamic_raw : Composite.score) (islamic_details : Json.json)
          (q : Z) (quality_details : gmap string Json.json)
          (authority : Z) (authority_details : Json.json)
          (equity_boost : Z) (equity_details : Json.json)
          (final islamic_int : Z),
      Composite.check_org_blocklist db domain sc
      = (Py.Ok (false, reason0), sc1) ->
      Composite.calculate_islamic_alignment w content domain
      = Py.Ok (islamic_raw, islamic_details) ->
      Composite.calculate_quality_score w db content domain title
      = Py.Ok (q, quality_details) ->
      Composite.calculate_authority_score w url domain
      = Py.Ok (authority, authority_details) ->
      Composite.calculate_equity_boost w domain
      = Py.Ok (equity_boost, equity_details) ->
      let islamic_norm := Composite.normalize_islamic islamic_raw in
      let quality :=
        match crawled_at with
        | Some t => Z.min 100 (q + Composite.freshness w t)
        | None => q
        end in
      let media :=
        fst (fst (MediaLiteracy.calculate_media_literacy_score
                    (Composite.media_world w) content domain title
                    (Composite.media_stats sc1))) in
      Composite.py_round
        (islamic_norm * 0.30
         + Composite.float_of_Z quality * 0.25
         + Composite.float_of_Z authority * 0.20
         + Composite.float_of_Z media * 0.15
         + Composite.float_of_Z equity_boost * 0.10)%float = Py.Ok final ->
      Composite.int_of_score islamic_raw = Py.Ok islamic_int ->
      exists result sc2,
        Composite.calculate_composite_score w db page_id url title content
          domain crawled_at sc = (Py.Ok result, sc2)
        /\ result !! "final_composite_score" = Some (Json.JInt final)
        /\ result !! "indexable" = Some (Json.JBool (25 <=? final)%Z)
        /\ result !! "blocklist_reason" = Some Json.JNull)
  /\ (forall z : Z,
         Composite.normalize_islamic (Composite.SInt z)
         = (Composite.float_of_Z (z + 100) / 2)%float)
  /\ (forall f : float,
         Composite.normalize_islamic (Composite.SFloat f)
         = ((f + 100) / 2)%float)
  /\ (Composite.normalize_islamic (Composite.SInt 0) = 50%float
      /\ Composite.py_round (Composite.weighted_sum 50 50 50 50 0) = Py.Ok 45%Z
      /\ (25 <=? 45)%Z = true)
  /\ (Composite.py_round (Composite.weighted_sum 10 10 10 10 0) = Py.Ok 9%Z
      /\ (25 <=? 9)%Z = false).
Proof.
  split; [|split; [|split; [|split]]].
  - intros w db sc sc1 page_id url title content domain crawled_at reason0
           islamic_raw islamic_details q quality_details authority
           authority_details equity_boost equity_details final islamic_int
           Hb Hi Hq Ha He islamic_norm quality media Hr Hint.
    destruct (calculate_composite_score_combined w db sc sc1 page_id url title
                content domain crawled_at reason0 islamic_raw islamic_details
                q quality_details authority authority_details equity_boost
                equity_details Hb Hi Hq Ha He final islamic_int Hr Hint)
      as [result [sc2 H]].
    exists result, sc2. exact H.
  - reflexivity.
  - reflexivity.
  - repeat split; vm_compute; reflexivity.
  - repeat split; vm_compute; reflexivity.
Qed.

Lemma composite_score_formula_witness :
  exists result sc2,
    Composite.calculate_composite_score Spec.plain_world Spec.flagged_db 8%Z
      "https://example.org/garden" None (Some Spec.garden_page)
      "example.org" (Some 1762000000%Z) Composite.new_scorer
    = (Py.Ok result, sc2)
    /\ result !! "final_composite_score" = Some (Json.JInt 44)
    /\ result !! "indexable" = Some (Json.JBool (25 <=? 44)%Z)
    /\ result !! "blocklist_reason" = Some Json.JNull.
Proof.
  eapply (proj1 composite_score_formula Spec.plain_world Spec.flagged_db
            Composite.new_scorer _ 8%Z "https://example.org/garden" None
            (Some Spec.garden_page) "example.org" (Some 1762000000%Z)).
  - vm_compute. reflexivity.
  - reflexivity.
  - vm_compute. reflexivity.
  - reflexivity.
  - reflexivity.
  - vm_compute. reflexivity.
  - reflexivity.
Defined.

(** * Quality: the SSL check *)
Section SslFacts.
Import Py UrlParse Composite.

Lemma has_char_cons (c a : ascii) (s : string) :
  has_char c (String a s) = Ascii.eqb a c || has_char c s.
Proof.
  unfold has_char. simpl. destruct (Ascii.eqb a c); [reflexivity|].
  destruct (find_char c s); reflexivity.
Qed.









(** [calculate_quality_score] on content that passes the length guard. *)
Lemma calculate_quality_score_long (w : world) (db : database) (text : string)
    (domain : string) (title : option string) (score : Z)
    (details : gmap string Json.json) :
  too_short (Some text) = false ->
  calculate_quality_score w db (Some text) domain title = Ok (score, details) ->
  exists grammar,
    grammar_score text = Ok grammar
    /\ score = Z.min 100 (content_quality w text grammar
                          + ((if has_ssl domain then 10 else 0)
                             + get_domain_age_score w db domain + 5))%Z
    /\ details !! "has_ssl" = Some (Json.JBool (has_ssl domain)).
Proof.
  intros Hs. unfold calculate_quality_score. rewrite Hs.
  destruct (grammar_score text) as [g|e]; cbn [bind]; [|discriminate].
  intros [= <- <-]. exists g. split; [reflexivity|]. split.
  - destruct (has_ssl domain); reflexivity.
  - reflexivity.
Qed.

(** Content that fails the guard scores 0, with no [has_ssl] entry. *)
Lemma calculate_quality_score_short (w : world) (db : database)
    (content : option string) (domain : string) (title : option string) :
  too_short content = true ->
  calculate_quality_score w db content domain title
  = Ok (0%Z, {[ "reason" := Json.JStr "content_too_short" ]}).
Proof.
  intros Hs. unfold calculate_quality_score.
  destruct content as [text|]; [rewrite Hs|]; reflexivity.
Qed.

End SslFacts.




(** * Further properties of the Tier-1 blocklist *)
Section BlocklistMore.
Import Py Blocklist Spec.

Lemma find_none_all {A : Type} (p : A -> bool) (l : list A) :
  (forall x, In x l -> p x = false) -> find p l = None.
Proof.
  intros H. destruct (find p l) eqn:E; [|reflexivity].
  apply find_some in E as [Hin Hp]. rewrite (H _ Hin) in Hp. discriminate.
Qed.

(** The verdict does not depend on the order in which the sets are
    walked: a URL is allowed exactly when it parses and no domain rule,
    no TLD rule and no pattern applies. *)
Lemma allowed_iff (bl : Tier1Blocklist) (url : string) :
  fst (is_blocked bl url) = false <->
  exists domain,
    host url = Ok domain
    /\ no_domain_rule bl domain
    /\ no_tld_rule bl domain
    /\ (forall p, In p (compiled_patterns bl) -> search p (lower url) = false).
Proof.
  split.
  - destruct (host url) as [domain|e] eqn:Hh.
    + rewrite (is_blocked_unfold bl url domain Hh).
      destruct (bool_decide (domain ∈ blocked_domains bl)); [discriminate|].
      destruct (find (fun d => covers d domain) _) eqn:F1; [discriminate|].
      destruct (find (fun tld => endswith tld domain) _) eqn:F2; [discriminate|].
      destruct (find (fun p => search p (lower url)) _) eqn:F3; [discriminate|].
      intros _. exists domain. split; [reflexivity|]. split; [|split].
      * intros d Hd. apply (find_elements_none _ _ F1 d Hd).
      * intros t Ht. apply (find_elements_none _ _ F2 t Ht).
      * intros p Hp. apply (find_none _ _ F3 p Hp).
    + unfold host in Hh. unfold is_blocked.
      destruct (UrlParse.netloc (lower url)); [discriminate|]. discriminate.
  - intros [domain [Hh [Hd [Ht Hp]]]].
    rewrite (pattern_rule bl url domain Hh Hd Ht).
    rewrite (find_none_all _ _ Hp). reflexivity.
Qed.

End BlocklistMore.

(** X1.  After [add_domain], every URL whose host is the added domain
    (lower-cased, stripped, without a leading [www.]) is blocked by the
    exact rule, under that name. *)
Theorem add_domain_blocks :
  forall (bl : Blocklist.Tier1Blocklist) (domain url : string),
    Spec.host url = Py.Ok (Blocklist.clean_domain domain) ->
    Blocklist.is_blocked (Blocklist.add_domain bl domain) url
    = (true, Some ("Blocked domain: " +:+ Blocklist.clean_domain domain)).
Proof.
  intros bl domain url H.
  apply (exact_rule (Blocklist.add_domain bl domain) url _ H).
  simpl. set_solver.
Qed.

Lemma add_domain_blocks_witness :
  Blocklist.is_blocked (Blocklist.add_domain Blocklist.init " WWW.SpamSite.com ")
    "https://www.spamsite.com/offers"
  = (true, Some "Blocked domain: spamsite.com").
Proof.
  apply (add_domain_blocks Blocklist.init " WWW.SpamSite.com "
           "https://www.spamsite.com/offers").
  vm_compute. reflexivity.
Defined.


(** X3.  Adding a domain or a pattern never unblocks a URL. *)
Theorem adding_rules_never_unblocks :
  forall (bl : Blocklist.Tier1Blocklist) (url : string),
    fst (Blocklist.is_blocked bl url) = true ->
    (forall domain,
        fst (Blocklist.is_blocked (Blocklist.add_domain bl domain) url) = true)
    /\ (forall p,
           fst (Blocklist.is_blocked (Blocklist.add_pattern bl p) url) = true).
Proof.
  intros bl url H. split.
  - intros domain.
    destruct (fst (Blocklist.is_blocked (Blocklist.add_domain bl domain) url))
      eqn:E; [reflexivity|].
    apply allowed_iff in E as [d [Hh [Hd [Ht Hp]]]].
    assert (A : fst (Blocklist.is_blocked bl url) = false).
    { apply allowed_iff. exists d. split; [exact Hh|]. split; [|split].
      - intros x Hx. apply Hd. simpl. set_solver.
      - exact Ht.
      - exact Hp. }
    congruence.
  - intros p.
    destruct (fst (Blocklist.is_blocked (Blocklist.add_pattern bl p) url))
      eqn:E; [reflexivity|].
    apply allowed_iff in E as [d [Hh [Hd [Ht Hp]]]].
    assert (A : fst (Blocklist.is_blocked bl url) = false).
    { apply allowed_iff. exists d. split; [exact Hh|]. split; [|split].
      - exact Hd.
      - exact Ht.
      - intros x Hx. apply Hp. simpl. apply in_or_app. left. exact Hx. }
    congruence.
Qed.

Lemma adding_rules_never_unblocks_witness :
  fst (Blocklist.is_blocked
         (Blocklist.add_domain Blocklist.init "badnews.io")
         "https://example.com/casino/x") = true.
Proof.
  apply (proj1 (adding_rules_never_unblocks Blocklist.init
                  "https://example.com/casino/x"
                  ltac:(vm_compute; reflexivity))).
Defined.

(** X4.  [remove_domain] undoes [add_domain] whenever both are given
    names that clean to the same domain and the domain was not blocked
    before; and after [remove_domain] the cleaned name is no member of
    the domain set. *)
Theorem remove_domain_undoes_add :
  forall (bl : Blocklist.Tier1Blocklist) (d1 d2 : string),
    (Blocklist.clean_domain d2
     ∉ Blocklist.blocked_domains (Blocklist.remove_domain bl d2))
    /\ (Blocklist.clean_domain d1 = Blocklist.clean_domain d2 ->
        Blocklist.clean_domain d1 ∉ Blocklist.blocked_domains bl ->
        Blocklist.remove_domain (Blocklist.add_domain bl d1) d2 = bl).
Proof.
  intros bl d1 d2. split.
  - simpl. set_solver.
  - intros E H. destruct bl as [ds ts ps]. unfold Blocklist.remove_domain,
      Blocklist.add_domain. simpl in *. f_equal. rewrite <- E. set_solver.
Qed.

Lemma remove_domain_undoes_add_witness :
  Blocklist.remove_domain
    (Blocklist.add_domain Blocklist.init "WWW.Example.COM") " example.com"
  = Blocklist.init.
Proof.
  apply (proj2 (remove_domain_undoes_add Blocklist.init "WWW.Example.COM"
                  " example.com")).
  - vm_compute. reflexivity.
  - intros H. apply (bool_decide_pack _) in H. vm_compute in H. exact H.
Defined.

(** * Further properties of the frontier store *)
Section RedisMore.
Import Py Redis SpecX.

Lemma pop_right_snoc (l : list string) (x : string) :
  pop_right (l ++ [x]) = Some (l, x).
Proof.
  induction l as [|a l IH]; [reflexivity|].
  simpl. rewrite IH. reflexivity.
Qed.

(** Draining a queue hands its URLs out from the right end. *)
Lemma dequeue_n_all (q : list string) (s : gset string) :
  dequeue_n (List.length q) {| queue := q; qset := s |}
  = (rev q, {| queue := []; qset := s |}).
Proof.
  induction q as [|x q IH] using rev_ind; [reflexivity|].
  rewrite length_app, Nat.add_comm. simpl.
  unfold dequeue_url, rpop. simpl. rewrite pop_right_snoc. simpl.
  rewrite IH, rev_unit. reflexivity.
Qed.

(** Fresh, pairwise distinct URLs are pushed at the left end, the last
    one leftmost. *)
Lemma enqueue_all_fresh (urls : list string) (st : store) :
  NoDup urls -> (forall u, In u urls -> u ∉ qset st) ->
  enqueue_all urls st
  = {| queue := (rev urls ++ queue st)%list;
       qset := list_to_set urls ∪ qset st |}.
Proof.
  unfold enqueue_all, run. revert st.
  induction urls as [|u urls IH]; intros st Hnd Hf.
  - destruct st as [q s]. simpl. f_equal. set_solver.
  - apply NoDup_cons in Hnd as [Hu Hnd']. simpl.
    rewrite enqueue_url_cases.
    rewrite bool_decide_eq_false_2 by (apply Hf; left; reflexivity).
    simpl. rewrite IH.
    + simpl. rewrite <- app_assoc. simpl. f_equal. set_solver.
    + exact Hnd'.
    + simpl. intros v Hv. specialize (Hf v (or_intror Hv)).
      assert (v <> u)
        by (intros E; apply Hu; rewrite <- E; apply list_elem_of_In, Hv).
      set_solver.
Qed.

End RedisMore.

(** X5.  The frontier is first in, first out: on a store whose queue
    holds [q], after enqueueing fresh, pairwise distinct URLs, draining
    the queue hands out the old entries from the right end and then the
    new URLs in the order in which they were enqueued. *)
Theorem frontier_is_fifo :
  forall (st : Redis.store) (urls : list string),
    NoDup urls -> (forall u, In u urls -> u ∉ Redis.qset st) ->
    fst (SpecX.dequeue_n (List.length (Redis.queue st) + List.length urls)
           (SpecX.enqueue_all urls st))
    = (rev (Redis.queue st) ++ urls)%list.
Proof.
  intros st urls Hnd Hf. rewrite (enqueue_all_fresh urls st Hnd Hf).
  replace (List.length (Redis.queue st) + List.length urls)
    with (List.length (rev urls ++ Redis.queue st)%list)
    by (rewrite length_app, length_rev; lia).
  rewrite dequeue_n_all. simpl. rewrite rev_app_distr, rev_involutive.
  reflexivity.
Qed.

Lemma frontier_is_fifo_witness :
  fst (SpecX.dequeue_n 3
         (SpecX.enqueue_all
            ["https://example.com"; "https://example.org"; "https://example.net"]
            Redis.empty))
  = ["https://example.com"; "https://example.org"; "https://example.net"].
Proof.
  apply (frontier_is_fifo Redis.empty
           ["https://example.com"; "https://example.org"; "https://example.net"]).
  - repeat (apply NoDup_cons; split; [set_solver|]). apply NoDup_nil. exact I.
  - intros u _. simpl. set_solver.
Defined.

(** X6.  Starting from the empty store, whatever is enqueued and
    dequeued and whichever calls fail, the queue never holds a URL
    twice and every queued URL is in the dedup set. *)
Theorem queue_never_holds_duplicates :
  forall ops : list Redis.op,
    NoDup (Redis.queue (Redis.run ops Redis.empty))
    /\ (forall u, In u (Redis.queue (Redis.run ops Redis.empty)) ->
                  u ∈ Redis.qset (Redis.run ops Redis.empty)).
Proof. intros ops. apply (wf_run ops Redis.empty wf_empty). Qed.

Section RedisLoss.
Import Py Redis.

(** A member of the dedup set that is not queued stays out of the queue
    under every call. *)
Lemma step_keeps_out (url : string) (st : store) (o : op) :
  url ∈ qset st -> ~ In url (queue st) ->
  url ∈ qset (step st o) /\ ~ In url (queue (step st o)).
Proof.
  intros Hs Hq. split; [apply (step_qset st o), Hs|].
  destruct o as [u1 u2 u|up]; simpl.
  - rewrite enqueue_url_cases.
    destruct u1; [|exact Hq].
    destruct (bool_decide (u ∈ qset st)) eqn:E; [exact Hq|].
    apply bool_decide_eq_false in E.
    destruct u2; simpl; [|exact Hq].
    intros [->|H]; [contradiction|contradiction].
  - unfold dequeue_url, rpop. destruct up; [|exact Hq].
    destruct (pop_right (queue st)) as [[q x]|] eqn:E; [|exact Hq].
    apply pop_right_spec in E. simpl. intros H. apply Hq. rewrite E.
    apply in_or_app. left. exact H.
Qed.

Lemma run_keeps_out (url : string) (ops : list op) (st : store) :
  url ∈ qset st -> ~ In url (queue st) ->
  ~ In url (queue (run ops st)).
Proof.
  revert st. induction ops as [|o ops IH]; intros st Hs Hq; [exact Hq|].
  simpl. destruct (step_keeps_out url st o Hs Hq) as [Hs' Hq'].
  apply IH; assumption.
Qed.

End RedisLoss.

(** X7.  When [SADD] succeeds and the following [LPUSH] raises,
    [enqueue_url] returns [False] with the URL recorded in the dedup
    set but not queued; from then on no sequence of enqueues and
    dequeues ever brings that URL into the queue. *)
Theorem failed_push_loses_url :
  forall (st : Redis.store) (url : string),
    Redis.wf st -> url ∉ Redis.qset st ->
    fst (Redis.enqueue_url true false url st) = false
    /\ url ∈ Redis.qset (snd (Redis.enqueue_url true false url st))
    /\ forall ops : list Redis.op,
         ~ In url (Redis.queue
                     (Redis.run ops (snd (Redis.enqueue_url true false url st)))).
Proof.
  intros st url [Hnd Hin] Hn. rewrite enqueue_url_cases.
  rewrite bool_decide_eq_false_2 by exact Hn. simpl.
  split; [reflexivity|]. split; [set_solver|].
  intros ops. apply run_keeps_out; simpl; [set_solver|].
  intros H. apply Hn, Hin, H.
Qed.

Lemma failed_push_loses_url_witness :
  ~ In "https://example.org/a"
      (Redis.queue
         (Redis.run [Redis.Enqueue true true "https://example.org/a";
                     Redis.Dequeue true;
                     Redis.Enqueue true true "https://example.org/a"]
            (snd (Redis.enqueue_url true false "https://example.org/a"
                    Redis.empty)))).
Proof.
  apply (proj2 (proj2 (failed_push_loses_url Redis.empty
                         "https://example.org/a" wf_empty
                         ltac:(simpl; set_solver)))).
Defined.

(** X8.  The answer of [enqueue_url] tells whether the queue grew: its
    length goes up by one exactly when the answer is [True]; and
    [dequeue_url] shortens it by one exactly when it hands out a URL. *)
Theorem queue_size_accounting :
  forall (st : Redis.store) (up1 up2 : bool) (url : string),
    Redis.queue_size (snd (Redis.enqueue_url up1 up2 url st))
    = Redis.queue_size st
      + (if fst (Redis.enqueue_url up1 up2 url st) then 1 else 0)
    /\ Redis.queue_size st
       = Redis.queue_size (snd (Redis.dequeue_url up1 st))
         + (match fst (Redis.dequeue_url up1 st) with
            | Some _ => 1
            | None => 0
            end).
Proof.
  intros st up1 up2 url. split.
  - rewrite enqueue_url_cases. unfold Redis.queue_size.
    destruct up1, (bool_decide (url ∈ Redis.qset st)), up2; simpl; lia.
  - unfold Redis.dequeue_url, Redis.rpop, Redis.queue_size.
    destruct up1; simpl; [|lia].
    destruct (Redis.pop_right (Redis.queue st)) as [[q x]|] eqn:E; simpl; [|lia].
    apply pop_right_spec in E. rewrite E, length_app. simpl. lia.
Qed.

(** * Further properties of the crawler's URL handling *)
Section CrawlerMore.
Import Py Crawler Spec SpecX.

Lemma take_find_char (c : ascii) (s : string) (i : nat) :
  find_char c s = Some i -> has_char c (take i s) = false.
Proof.
  revert i. induction s as [|a s IH]; intros i; simpl; [discriminate|].
  destruct (Ascii.eqb a c) eqn:E.
  - intros [= <-]. reflexivity.
  - destruct (find_char c s) as [j|]; [|discriminate].
    intros [= <-]. simpl. rewrite has_char_cons, E, (IH j eq_refl).
    reflexivity.
Qed.

Lemma defragment_no_hash (s : string) : has_char "#" (defragment s) = false.
Proof.
  unfold defragment. destruct (find_char "#" s) as [i|] eqn:E.
  - apply take_find_char, E.
  - unfold has_char. rewrite E. reflexivity.
Qed.





Lemma hex_digit_is_hex (d : Z) :
  (0 <= d < 16)%Z -> is_lower_hex (Sha256.hex_digit d) = true.
Proof.
  intros H.
  assert (E : (d = 0 \/ d = 1 \/ d = 2 \/ d = 3 \/ d = 4 \/ d = 5 \/ d = 6
               \/ d = 7 \/ d = 8 \/ d = 9 \/ d = 10 \/ d = 11 \/ d = 12
               \/ d = 13 \/ d = 14 \/ d = 15)%Z) by lia.
  repeat (destruct E as [->|E]; [reflexivity|]). subst d. reflexivity.
Qed.

Lemma be_bytes_range (n : nat) (x b : Z) :
  In b (Sha256.be_bytes n x) -> (0 <= b < 256)%Z.
Proof.
  induction n as [|n IH]; simpl; [tauto|].
  intros [<-|H]; [apply Z.mod_pos_bound; lia|auto].
Qed.

Lemma be_bytes_length (n : nat) (x : Z) : List.length (Sha256.be_bytes n x) = n.
Proof. induction n as [|n IH]; simpl; [|rewrite IH]; reflexivity. Qed.

Lemma hex_of_bytes_spec (bs : list Z) :
  (forall b, In b bs -> (0 <= b < 256)%Z) ->
  String.length (Sha256.hex_of_bytes bs) = 2 * List.length bs
  /\ UrlParse.all_chars is_lower_hex (Sha256.hex_of_bytes bs) = true.
Proof.
  induction bs as [|b bs IH]; intros H; [split; reflexivity|].
  destruct IH as [IL IC]; [intros x Hx; apply H; right; exact Hx|].
  assert (Hb : (0 <= b < 256)%Z) by (apply H; left; reflexivity).
  split.
  - cbn [Sha256.hex_of_bytes String.length List.length]. rewrite IL. lia.
  - cbn [Sha256.hex_of_bytes UrlParse.all_chars]. rewrite IC.
    rewrite !hex_digit_is_hex; [reflexivity| |].
    + apply Z.mod_pos_bound. lia.
    + split; [apply Z.div_pos; lia|apply Z.div_lt_upper_bound; lia].
Qed.

End CrawlerMore.

(** X9.  Whatever string it is given, [normalize_url] returns a string
    that begins with [http://] or [https://] and holds no hash sign. *)
Theorem normalize_url_shape :
  forall url : string,
    Spec.has_scheme (Crawler.normalize_url url) = true
    /\ Py.has_char "#" (Crawler.normalize_url url) = false.
Proof.
  intros url. rewrite normalize_url_steps. cbv zeta.
  pose proof (defragment_no_hash (Py.strip url)) as H.
  destruct (Spec.has_scheme (Spec.defragment (Py.strip url))) eqn:E.
  - split; [exact E|exact H].
  - split; [reflexivity|]. apply https_no_hash, H.
Qed.

(** X10.  [get_url_hash] returns 64 lower-case hexadecimal digits for
    every URL. *)
Theorem get_url_hash_format :
  forall url : string,
    String.length (Crawler.get_url_hash url) = 64
    /\ UrlParse.all_chars SpecX.is_lower_hex (Crawler.get_url_hash url) = true.
Proof.
  intros url. unfold Crawler.get_url_hash, Sha256.hexdigest.
  set (ws := Sha256.digest_words (Sha256.bytes_of url)).
  destruct (hex_of_bytes_spec (flat_map (Sha256.be_bytes 4) ws)) as [L C].
  - intros b Hb. apply in_flat_map in Hb as [x [_ Hb]].
    eapply be_bytes_range, Hb.
  - split; [|exact C]. rewrite L.
    unfold ws, Sha256.digest_words. cbv zeta.
    cbn [flat_map]. rewrite !length_app, !be_bytes_length. reflexivity.
Qed.

(** X11.  [queue_url] answers [True] exactly when the URL is neither
    blocked nor stored as a page; what the frontier store did with the
    URL, and whether it could be reached at all, has no part in the
    answer. *)
Theorem queue_url_answer :
  forall (c : Crawler.crawler) (url : string) (up1 up2 : bool),
    fst (Crawler.queue_url up1 up2 url c) = true <->
    fst (Blocklist.is_blocked (Crawler.blocklist c) url) = false
    /\ Crawler.is_url_crawled (Crawler.get_url_hash url) c = false.
Proof.
  intros c url up1 up2. split.
  - intros H.
    destruct (fst (Blocklist.is_blocked (Crawler.blocklist c) url)) eqn:B.
    + rewrite (queue_url_refused c url up1 up2 (or_introl B)) in H.
      discriminate.
    + destruct (Crawler.is_url_crawled (Crawler.get_url_hash url) c) eqn:K.
      * rewrite (queue_url_refused c url up1 up2 (or_intror K)) in H.
        discriminate.
      * split; reflexivity.
  - intros [B K]. rewrite (queue_url_passed c url up1 up2 B K). reflexivity.
Qed.


(** * Further properties of the media-literacy scorer *)
Section MediaMore.
Import Py Json MediaLiteracy.

Variable w : world.

(** How [analyze_with_openrouter] moves the counters. *)
Lemma analyze_counters (content : option string) (domain : string)
    (title : option string) (s : stats) :
  let s' := snd (analyze_with_openrouter w content domain title s) in
  total_calls s' = total_calls s
  /\ skipped_neutral s' = skipped_neutral s
  /\ analyzed s' + errors s' = S (analyzed s + errors s)
  /\ fallback_used s <= fallback_used s' <= S (fallback_used s).
Proof.
  cbv zeta. unfold analyze_with_openrouter.
  destruct (first_response w _) as [[response|] fb].
  - destruct (extract_analysis w response) as [[z d]|e].
    + destruct fb; simpl; lia.
    + destruct e, fb; simpl; lia.
  - destruct fb; simpl; lia.
Qed.

Lemma has_char_backtick_head (c : ascii) (x : string) :
  has_char "`" (String c x) = false ->
  Ascii.eqb c "`" = false /\ has_char "`" x = false.
Proof. rewrite has_char_cons. apply orb_false_iff. Qed.

(** Text without a backtick runs up to the next fence. *)
Lemma until_fence_app (x rest : string) :
  has_char "`" x = false -> until_fence (x +:+ "```" +:+ rest) = x.
Proof.
  induction x as [|c x IH]; intros H; [reflexivity|].
  apply has_char_backtick_head in H as [Hc Hx].
  change (String c x +:+ "```" +:+ rest)
    with (String c (x +:+ "```" +:+ rest)).
  cbn [until_fence startswith]. rewrite Ascii.eqb_sym, Hc. cbn [andb].
  rewrite IH by exact Hx. reflexivity.
Qed.

End MediaMore.

(** X13.  Every call of [calculate_media_literacy_score] counts once in
    [total_calls] and once in exactly one of [skipped_neutral],
    [analyzed] and [errors]; [fallback_used] goes up by at most one.
    So [total_calls = skipped_neutral + analyzed + errors] holds after
    any number of calls on a new scorer. *)
Theorem media_counters_add_up :
  forall (w : MediaLiteracy.world) (content : option string) (domain : string)
         (title : option string) (s : MediaLiteracy.stats),
    let s' := snd (MediaLiteracy.calculate_media_literacy_score
                     w content domain title s) in
    MediaLiteracy.total_calls s' = S (MediaLiteracy.total_calls s)
    /\ MediaLiteracy.skipped_neutral s' + MediaLiteracy.analyzed s'
       + MediaLiteracy.errors s'
       = S (MediaLiteracy.skipped_neutral s + MediaLiteracy.analyzed s
            + MediaLiteracy.errors s)
    /\ MediaLiteracy.fallback_used s <= MediaLiteracy.fallback_used s'
       <= S (MediaLiteracy.fallback_used s).
Proof.
  intros w content domain title s. cbv zeta.
  unfold MediaLiteracy.calculate_media_literacy_score.
  destruct (MediaLiteracy.needs_analysis content domain) as [[] matched];
    cbn [negb].
  - pose proof (analyze_counters w content domain title
                  (MediaLiteracy.count_call s)) as H. cbv zeta in H.
    destruct (MediaLiteracy.analyze_with_openrouter w content domain title
                (MediaLiteracy.count_call s)) as [[z d] s'].
    simpl in *. lia.
  - simpl. lia.
Qed.

(** X14.  Without an API key no request is made: whenever
    [OPENROUTER_API_KEY] is unset the score is the neutral 50, whatever
    the content and whatever the endpoint would answer. *)
Theorem no_api_key_gives_neutral :
  forall (w : MediaLiteracy.world) (content : option string) (domain : string)
         (title : option string) (s : MediaLiteracy.stats),
    MediaLiteracy.api_key w = None ->
    fst (fst (MediaLiteracy.calculate_media_literacy_score
                w content domain title s)) = 50%Z.
Proof.
  intros w content domain title s H.
  pose proof (calculate_cases w content domain title s) as C.
  pose proof (analyze_cases w content domain title (MediaLiteracy.count_call s))
    as A.
  cbv zeta in C, A. unfold MediaLiteracy.first_response in A.
  unfold MediaLiteracy.call_openrouter in A. rewrite H in A. cbn [fst] in A.
  destruct (fst (MediaLiteracy.needs_analysis content domain)).
  - destruct C as [-> _]. apply A.
  - apply C.
Qed.

Lemma no_api_key_gives_neutral_witness :
  fst (fst (MediaLiteracy.calculate_media_literacy_score
              {| MediaLiteracy.api_key := None;
                 MediaLiteracy.post := MediaLiteracy.post Spec.overrated_world;
                 MediaLiteracy.json_loads :=
                   MediaLiteracy.json_loads Spec.overrated_world |}
              (Some Spec.miracle_page) "example.com" None
              MediaLiteracy.stats0)) = 50%Z.
Proof.
  apply (no_api_key_gives_neutral
           {| MediaLiteracy.api_key := None;
              MediaLiteracy.post := MediaLiteracy.post Spec.overrated_world;
              MediaLiteracy.json_loads :=
                MediaLiteracy.json_loads Spec.overrated_world |}).
  reflexivity.
Defined.

(** X15.  When the gate does not ask for analysis, the result is the
    neutral 50 with [skipped_analysis] set, and it is the same in every
    world: neither the API nor the JSON decoder is consulted. *)
Theorem skipped_analysis_is_free :
  forall (w w' : MediaLiteracy.world) (content : option string)
         (domain : string) (title : option string) (s : MediaLiteracy.stats),
    fst (MediaLiteracy.needs_analysis content domain) = false ->
    MediaLiteracy.calculate_media_literacy_score w content domain title s
    = MediaLiteracy.calculate_media_literacy_score w' content domain title s
    /\ fst (fst (MediaLiteracy.calculate_media_literacy_score
                   w content domain title s)) = 50%Z
    /\ snd (fst (MediaLiteracy.calculate_media_literacy_score
                   w content domain title s)) !! "skipped_analysis"
       = Some (Json.JBool true).
Proof.
  intros w w' content domain title s H.
  unfold MediaLiteracy.calculate_media_literacy_score.
  destruct (MediaLiteracy.needs_analysis content domain) as [b matched].
  simpl in H. subst b. repeat split; reflexivity.
Qed.

Lemma skipped_analysis_is_free_witness :
  fst (fst (MediaLiteracy.calculate_media_literacy_score
              Spec.overrated_world (Some Spec.garden_page) "example.org" None
              MediaLiteracy.stats0)) = 50%Z.
Proof.
  apply (proj1 (proj2 (skipped_analysis_is_free Spec.overrated_world
                         Spec.overrated_world (Some Spec.garden_page)
                         "example.org" None MediaLiteracy.stats0
                         ltac:(vm_compute; reflexivity)))).
Defined.

(** X16.  A Markdown fence around the model's answer is removed: for a
    body without backtick, the text [```json body ``` rest] is reduced
    to the stripped body; text that does not start with a fence is left
    as it is. *)
Theorem strip_code_fence_unwraps :
  forall body rest text : string,
    (Py.has_char "`" body = false ->
     MediaLiteracy.strip_code_fence ("```json" +:+ body +:+ "```" +:+ rest)
     = Py.strip body)
    /\ (Py.startswith "```" text = false ->
        MediaLiteracy.strip_code_fence text = text).
Proof.
  intros body rest text. split.
  - intros H. unfold MediaLiteracy.strip_code_fence.
    change (Py.startswith "```" ("```json" +:+ body +:+ "```" +:+ rest))
      with true. cbv iota.
    change (Py.drop 3 ("```json" +:+ body +:+ "```" +:+ rest))
      with (("json" +:+ body) +:+ "```" +:+ rest).
    rewrite until_fence_app.
    + reflexivity.
    + change ("json" +:+ body)
        with (String "j" (String "s" (String "o" (String "n" body)))).
      rewrite !has_char_cons, H. reflexivity.
  - intros H. unfold MediaLiteracy.strip_code_fence. rewrite H. reflexivity.
Qed.

Lemma strip_code_fence_unwraps_witness :
  MediaLiteracy.strip_code_fence
    ("```json" +:+ " {'credibility_score': 80} " +:+ "```" +:+ "")
  = "{'credibility_score': 80}".
Proof.
  rewrite (proj1 (strip_code_fence_unwraps " {'credibility_score': 80} " ""
                    "") ltac:(reflexivity)).
  reflexivity.
Defined.

(** * Further properties of the composite scorer *)
Section PersistFacts.
Import Py Json Composite.

Lemma getitem_ok (k : string) (d : gmap string json) (v : json) :
  getitem k d = Ok v -> d !! k = Some v.
Proof. unfold getitem. destruct (d !! k); [intros [= ->]; reflexivity|discriminate]. Qed.

(** What a successful [save_scores_to_db] leaves in the store. *)
Lemma save_statements_ok (result : gmap string json) (db db' : database) :
  save_statements result db = Ok db' ->
  exists (row : log_row) (cols : score_cols) (id final : json),
    result !! "page_id" = Some id
    /\ result !! "final_composite_score" = Some final
    /\ l_final_composite_score row = final
    /\ l_page_id row = id
    /\ c_final_composite_score cols = final
    /\ page_scoring_logs db' = (page_scoring_logs db ++ [row])%list
    /\ org_blocklist db' = org_blocklist db
    /\ pages db' =
         match id with
         | JInt n =>
             alter (fun r => {| p_url := p_url r; p_domain := p_domain r;
                                p_crawled_at := p_crawled_at r;
                                p_scores := Some cols |}) n (pages db)
         | _ => pages db
         end.
Proof.
  unfold save_statements. intros H.
  repeat (apply bind_ok in H as [? [?G H]]).
  unfold update_page in *. unfold insert_log in H.
  destruct (db_up db) eqn:U; [|discriminate].
  match goal with G : Ok _ = Ok ?d |- _ => injection G as <- end.
  cbn [db_up] in H. injection H as <-.
  eexists. eexists. eexists. eexists.
  repeat match goal with G : getitem _ _ = Ok _ |- _ =>
           apply getitem_ok in G end.
  repeat split; try eassumption; reflexivity.
Qed.

Lemma composite_result_page_id (w : world) (db : database) (page_id : Z)
    (url : string) (title content : option string) (domain : string)
    (crawled_at : option Z) (sc sc' : scorer) (result : gmap string json) :
  calculate_composite_score w db page_id url title content domain crawled_at sc
  = (Ok result, sc') ->
  result !! "page_id" = Some (JInt page_id).
Proof.
  unfold calculate_composite_score, bindM, lift, ret. intros H.
  repeat match type of H with
         | context [match ?x with _ => _ end] => destruct x eqn:?
         end; try discriminate; injection H as <- <-; reflexivity.
Qed.

End PersistFacts.

(** X17.  [score_page] is all or nothing on the store.  When it raises,
    the store is as before.  When it returns a composite, exactly one
    audit row has been appended, carrying that composite and the page
    id; the row of the page, if there is one, has kept its URL, domain
    and crawl time and now carries that composite; every other page row
    and the org blocklist are untouched. *)
Theorem score_page_all_or_nothing :
  forall (w : Composite.world) (page_id : Z) (url : string)
         (title content : option string) (domain : string)
         (crawled_at : option Z) (sc : Composite.scorer)
         (db : Composite.database),
    let r := Composite.score_page w page_id url title content domain
               crawled_at sc db in
    match fst (fst r) with
    | Py.Raise _ => snd r = db
    | Py.Ok v =>
        (exists row,
            Composite.page_scoring_logs (snd r)
            = (Composite.page_scoring_logs db ++ [row])%list
            /\ Composite.l_final_composite_score row = v
            /\ Composite.l_page_id row = Json.JInt page_id)
        /\ Composite.org_blocklist (snd r) = Composite.org_blocklist db
        /\ (forall row0,
               Composite.pages db !! page_id = Some row0 ->
               exists cols,
                 Composite.pages (snd r) !! page_id
                 = Some {| Composite.p_url := Composite.p_url row0;
                           Composite.p_domain := Composite.p_domain row0;
                           Composite.p_crawled_at := Composite.p_crawled_at row0;
                           Composite.p_scores := Some cols |}
                 /\ Composite.c_final_composite_score cols = v)
        /\ (forall id, id <> page_id ->
                       Composite.pages (snd r) !! id = Composite.pages db !! id)
    end.
Proof.
  intros w page_id url title content domain crawled_at sc db. cbv zeta.
  unfold Composite.score_page.
  destruct (Composite.calculate_composite_score w db page_id url title content
              domain crawled_at sc) as [[result|e] sc'] eqn:C; [|reflexivity].
  unfold Composite.save_scores_to_db.
  destruct (Composite.save_statements result db) as [db'|e] eqn:S;
    [|reflexivity].
  cbn [fst snd].
  destruct (save_statements_ok result db db' S)
    as [row [cols [id [final [Hid [Hf [Hr [Hp [Hc [Hl [Ho Hpg]]]]]]]]]]].
  rewrite (composite_result_page_id _ _ _ _ _ _ _ _ _ _ _ C) in Hid.
  injection Hid as <-. unfold Composite.getitem. rewrite Hf.
  split; [exists row; auto|]. split; [exact Ho|]. split.
  - intros row0 H0. exists cols. rewrite Hpg, lookup_alter_eq, H0. auto.
  - intros id' Hne. rewrite Hpg. apply lookup_alter_ne. congruence.
Qed.

Lemma score_page_all_or_nothing_witness :
  exists row,
    Composite.page_scoring_logs
      (snd (Composite.score_page Spec.plain_world 8 "https://example.org/garden"
              None (Some Spec.garden_page) "example.org" (Some 1762000000%Z)
              Composite.new_scorer Spec.flagged_db))
    = [row]
    /\ Composite.l_final_composite_score row = Json.JInt 44.
Proof.
  pose proof (score_page_all_or_nothing Spec.plain_world 8
                "https://example.org/garden" None (Some Spec.garden_page)
                "example.org" (Some 1762000000%Z) Composite.new_scorer
                Spec.flagged_db) as H.
  cbv zeta in H.
  assert (E : fst (fst (Composite.score_page Spec.plain_world 8
                          "https://example.org/garden" None
                          (Some Spec.garden_page) "example.org"
                          (Some 1762000000%Z) Composite.new_scorer
                          Spec.flagged_db)) = Py.Ok (Json.JInt 44))
    by (vm_compute; reflexivity).
  rewrite E in H. destruct H as [[row [Hl [Hf _]]] _].
  exists row. split; [exact Hl|exact Hf].
Defined.

Section QualityBounds.
Import Py Json Composite.

Lemma calculate_readability_le (w : world) (text : string) :
  (calculate_readability w text <= 15)%Z.
Proof.
  unfold calculate_readability.
  repeat match goal with
         | |- context [match ?x with _ => _ end] => destruct x
         end; lia.
Qed.

Lemma calculate_content_length_score_le (text : string) :
  (calculate_content_length_score text <= 10)%Z.
Proof.
  unfold calculate_content_length_score.
  repeat match goal with
         | |- context [if ?x then _ else _] => destruct x
         end; lia.
Qed.

Lemma calculate_structural_quality_le (text : string) :
  (calculate_structural_quality text <= 15)%Z.
Proof.
  unfold calculate_structural_quality. cbv zeta.
  repeat match goal with
         | |- context [if ?x then _ else _] => destruct x
         end; lia.
Qed.

Lemma grammar_score_le (text : string) (g : Z) :
  grammar_score text = Ok g -> (g <= 15)%Z.
Proof.
  unfold grammar_score. destruct (50 <? _).
  - intros H. apply bind_ok in H as [n [_ [= <-]]]. lia.
  - intros [= <-]. lia.
Qed.

Lemma get_domain_age_score_le (w : world) (db : database) (domain : string) :
  (get_domain_age_score w db domain <= 15)%Z.
Proof.
  unfold get_domain_age_score.
  repeat match goal with
         | |- context [match ?x with _ => _ end] => destruct x
         end; lia.
Qed.

End QualityBounds.

(** X18.  Whatever the page, [calculate_quality_score] returns at most
    85: 15 for readability, 10 for length, 15 for structure, 15 for
    grammar and 30 for the technical part.  Its cap at 100 never binds;
    only the freshness points added by the caller can lift the quality
    above 85. *)
Theorem quality_score_at_most_85 :
  forall (w : Composite.world) (db : Composite.database)
         (content : option string) (domain : string) (title : option string)
         (score : Z) (details : gmap string Json.json),
    Composite.calculate_quality_score w db content domain title
    = Py.Ok (score, details) ->
    (score <= 85)%Z.
Proof.
  intros w db content domain title score details H.
  destruct (Composite.too_short content) eqn:S.
  - rewrite calculate_quality_score_short in H by exact S.
    injection H as <- _. lia.
  - destruct content as [text|]; [|discriminate].
    destruct (calculate_quality_score_long w db text domain title score
                details S H) as [g [Hg [-> _]]].
    unfold Composite.content_quality.
    pose proof (calculate_readability_le w text).
    pose proof (calculate_content_length_score_le text).
    pose proof (calculate_structural_quality_le text).
    pose proof (grammar_score_le text g Hg).
    pose proof (get_domain_age_score_le w db domain).
    destruct (Composite.has_ssl domain); lia.
Qed.

Lemma quality_score_at_most_85_witness :
  exists score details,
    Composite.calculate_quality_score Spec.plain_world Spec.flagged_db
      (Some Spec.garden_page) "https://example.org" None
    = Py.Ok (score, details)
    /\ (score <= 85)%Z.
Proof.
  assert (E : exists sd,
             Composite.calculate_quality_score Spec.plain_world Spec.flagged_db
               (Some Spec.garden_page) "https://example.org" None = Py.Ok sd)
    by (eexists; vm_compute; reflexivity).
  destruct E as [[score details] E]. exists score, details.
  split; [exact E|].
  apply (quality_score_at_most_85 _ _ _ _ _ _ _ E).
Defined.

(** X19.  The org-blocklist verdict is cached for the life of the
    scorer: once [check_org_blocklist] has answered for a domain with
    the store reachable, every later call for that domain returns the
    same verdict and leaves the scorer as it is, whatever the store
    holds by then. *)
Theorem org_verdict_is_cached :
  forall (db db' : Composite.database) (sc sc' : Composite.scorer)
         (domain : string) (verdict : bool * option string),
    Composite.db_up db = true ->
    Composite.check_org_blocklist db domain sc = (Py.Ok verdict, sc') ->
    Composite.check_org_blocklist db' domain sc' = (Py.Ok verdict, sc').
Proof.
  intros db db' sc sc' domain verdict U.
  unfold Composite.check_org_blocklist, Composite.bindM, Composite.lift.
  destruct (Composite.domain_clean domain) as [d|e]; [|discriminate].
  destruct (Composite.blocklist_cache sc !! d) as [cached|] eqn:E.
  - intros [= <- <-]. rewrite E. reflexivity.
  - rewrite U. intros [= <- <-]. cbn [Composite.blocklist_cache].
    rewrite lookup_insert_eq. reflexivity.
Qed.

Lemma org_verdict_is_cached_witness :
  Composite.check_org_blocklist
    {| Composite.db_up := true; Composite.org_blocklist := ∅;
       Composite.pages := ∅; Composite.page_scoring_logs := [] |}
    "stormfront.org"
    (snd (Composite.check_org_blocklist Spec.flagged_db "stormfront.org"
            Composite.new_scorer))
  = (Py.Ok (true, Some "Flagged by: SPLC - hate group"),
     snd (Composite.check_org_blocklist Spec.flagged_db "stormfront.org"
            Composite.new_scorer)).
Proof.
  apply (org_verdict_is_cached Spec.flagged_db _ Composite.new_scorer).
  - reflexivity.
  - vm_compute. reflexivity.
Defined.

